(** * Dart-Code: the refactor command (src/commands/refactor.ts)

    A shallow embedding of [RefactorCommands.performRefactor] and of the
    functions it calls, followed by the properties of the
    validate / collect options / request edit / consent / apply protocol.

    The command talks to three collaborators: the analysis server
    ([analyzer.editGetRefactoring]), the editor window ([vs.window]) and the
    command registry ([vs.commands.executeCommand]).  Every call to one of
    them is recorded, in order, in a history; what the collaborator answers
    is given by an environment, indexed by the number of calls made so far
    (the logical time of the invocation).  The mutable fields of the
    document ([version], [isClosed], the text behind [offsetAt]) are
    functions of that same time, so the document may change at every
    suspension point. *)

From stdpp Require Import base numbers strings list gmap.

Local Open Scope string_scope.
Local Open Scope list_scope.
Local Open Scope Z_scope.

(** ** Constants of the module *)

Definition REFACTOR_FAILED_DOC_MODIFIED : string :=
  "This refactor cannot be applied because the document has changed.".
Definition REFACTOR_ANYWAY : string := "Refactor Anyway".

(** The name under which the apply step is registered. *)
Definition APPLY_SOURCE_CHANGE : string := "_dart.applySourceChange".

(** The JavaScript escape [\n]. *)
Definition LF : string := String (Ascii.ascii_of_nat 10) "".

(** [Array.prototype.join]. *)
Definition join (sep : string) (items : list string) : string :=
  String.concat sep items.

(** Modelled from the spec: [unique] is imported from [../utils], which is
    not part of the sources at hand.  The de-duplication rule of the spec:
    when several items are identical, the item is kept once.  The first
    occurrence is the one kept, so the order of first appearance is
    preserved. *)
Definition unique_from {A : Type} `{EqDecision A} (seen items : list A) : list A :=
  fold_left (λ seen x, if decide (x ∈ seen) then seen else seen ++ [x]) items seen.

Definition unique {A : Type} `{EqDecision A} (items : list A) : list A :=
  unique_from [] items.

(** ** The vscode types the command reads *)

Record Position := { line : Z; character : Z }.

Record Range := { range_start : Position; range_end : Position }.

(** [vs.TextDocument].  The editor owns the document and may change it
    whenever the command is suspended: the fields that can change take the
    logical time at which they are read. *)
Record TextDocument := {
  fileName : string;
  isClosed : nat → bool;
  version : nat → Z;
  offsetAt : nat → Position → Z
}.

(** [options] of [vs.window.showInputBox]. *)
Record InputBoxOptions := {
  prompt : string;
  value : option string
}.

(** ** The analysis server types *)

(** Modelled from the spec: [RefactoringKind] is declared in
    [../analysis/analysis_server_types], which is not part of the sources at
    hand.  It is an enumerated tag, a string at run time; [EXTRACT_METHOD]
    is the tag the source names, the others are the remaining kinds of the
    analysis server protocol. *)
Inductive RefactoringKind :=
| CONVERT_GETTER_TO_METHOD
| CONVERT_METHOD_TO_GETTER
| EXTRACT_LOCAL_VARIABLE
| EXTRACT_METHOD
| INLINE_LOCAL_VARIABLE
| INLINE_METHOD
| MOVE_FILE
| RENAME.

(** The string a kind is at run time: the key used on [refactorOptions]. *)
Definition kind_key (k : RefactoringKind) : string :=
  match k with
  | CONVERT_GETTER_TO_METHOD => "CONVERT_GETTER_TO_METHOD"
  | CONVERT_METHOD_TO_GETTER => "CONVERT_METHOD_TO_GETTER"
  | EXTRACT_LOCAL_VARIABLE => "EXTRACT_LOCAL_VARIABLE"
  | EXTRACT_METHOD => "EXTRACT_METHOD"
  | INLINE_LOCAL_VARIABLE => "INLINE_LOCAL_VARIABLE"
  | INLINE_METHOD => "INLINE_METHOD"
  | MOVE_FILE => "MOVE_FILE"
  | RENAME => "RENAME"
  end.

(** [as.RefactoringProblem], with the two fields the command reads.  The
    severity is the string the source compares with ["FATAL"], ["ERROR"]
    and ["WARNING"]. *)
Record RefactoringProblem := {
  severity : string;
  message : string
}.

(** What the runtime raises when the command goes wrong: both are a
    [TypeError], which rejects the promise of the async function. *)
Inductive JsError :=
| NotAFunction (callee : string)
| PropertyOfUndefined (property : string).

Inductive MessageLevel := ErrorLevel | WarningLevel.

Section Refactor.

(** The two payloads the command only passes along: a parameter of the
    method to extract and the edit-set of a response.  Their declarations
    are in [analysis_server_types]; nothing here looks inside them. *)
Context {RefactoringMethodParameter SourceChange : Type}.

(** [as.RefactoringFeedback], seen through the unchecked cast to
    [as.ExtractMethodFeedback]: the fields [getExtractMethodArgs] reads.
    [names] may be missing, which the source tests for. *)
Record RefactoringFeedback := {
  names : option (list string);
  fb_parameters : list RefactoringMethodParameter;
  fb_returnType : string
}.

(** [as.RefactoringOptions], as built for EXTRACT_METHOD. *)
Record RefactoringOptions := {
  createGetter : bool;
  extractAll : bool;
  name : string;
  parameters : list RefactoringMethodParameter;
  returnType : string
}.

(** [as.EditGetRefactoringRequest]. *)
Record EditGetRefactoringRequest := {
  file : string;
  kind : RefactoringKind;
  length : Z;
  offset : Z;
  options : option RefactoringOptions;
  validateOnly : bool
}.

(** [as.EditGetRefactoringResponse]; [feedback] and [change] are
    optional. *)
Record EditGetRefactoringResponse := {
  initialProblems : list RefactoringProblem;
  optionsProblems : list RefactoringProblem;
  finalProblems : list RefactoringProblem;
  feedback : option RefactoringFeedback;
  change : option SourceChange
}.

(** ** Calls to the collaborators *)

Inductive Call :=
| EditGetRefactoring (req : EditGetRefactoringRequest)
| ShowMessage (level : MessageLevel) (msg : string) (items : list string)
| ShowInputBox (opts : InputBoxOptions)
| ExecuteCommand (command : string) (document : TextDocument)
    (arg : option SourceChange).

(** What the collaborators answer to a call issued at logical time [t]:
    the server's response, the item the user picks on a message (or
    nothing), the text the user enters (or nothing).  Every call the command
    awaits is taken to resolve: a collaborator whose promise is rejected is
    not part of this model, so an exception of a run is one the command
    raises itself, and what is said of the outcome of a run is said of the
    runs in which no collaborator fails. *)
Record Env := {
  server_response : nat → EditGetRefactoringRequest → EditGetRefactoringResponse;
  user_pick : nat → MessageLevel → string → list string → option string;
  user_entry : nat → InputBoxOptions → option string
}.

(** ** The command monad: a history of calls and a possible exception *)

Inductive Outcome (A : Type) :=
| Returned (a : A)
| Threw (e : JsError).
Global Arguments Returned {A} a.
Global Arguments Threw {A} e.

Definition M (A : Type) : Type := list Call → Outcome A * list Call.

Definition throw {A} (e : JsError) : M A := λ h, (Threw e, h).

Definition ret {A} (a : A) : M A := λ h, (Returned a, h).

Global Instance M_bind : MBind M := λ A B k m h,
  match m h with
  | (Returned a, h') => k a h'
  | (Threw e, h') => (Threw e, h')
  end.

(** The logical time: the number of calls made so far. *)
Definition now : M nat := λ h, (Returned (List.length h), h).

Definition call (c : Call) : M unit := λ h, (Returned tt, h ++ [c]).

Variable env : Env.

(** [this.analyzer.editGetRefactoring(request)]. *)
Definition editGetRefactoring (req : EditGetRefactoringRequest)
  : M EditGetRefactoringResponse :=
  t ← now;
  call (EditGetRefactoring req);;
  ret (server_response env t req).

(** [vs.window.showErrorMessage(message, ...items)]. *)
Definition showErrorMessage (msg : string) (items : list string)
  : M (option string) :=
  t ← now;
  call (ShowMessage ErrorLevel msg items);;
  ret (user_pick env t ErrorLevel msg items).

(** [vs.window.showWarningMessage(message, ...items)]. *)
Definition showWarningMessage (msg : string) (items : list string)
  : M (option string) :=
  t ← now;
  call (ShowMessage WarningLevel msg items);;
  ret (user_pick env t WarningLevel msg items).

(** [vs.window.showInputBox(options)]. *)
Definition showInputBox (opts : InputBoxOptions) : M (option string) :=
  t ← now;
  call (ShowInputBox opts);;
  ret (user_entry env t opts).

(** [vs.commands.executeCommand(command, document, change)]. *)
Definition executeCommand (command : string) (document : TextDocument)
    (arg : option SourceChange) : M unit :=
  call (ExecuteCommand command document arg).

(** ** The options resolvers *)

(** [getExtractMethodArgs].  [f] is [validationResult.feedback], which may
    be undefined: reading [names] from it then raises. *)
Definition getExtractMethodArgs (f : option RefactoringFeedback)
  : M (option RefactoringOptions) :=
  match f with
  | None => throw (PropertyOfUndefined "names")
  | Some feedback =>
      let suggestedName :=
        match names feedback with
        | Some (first :: _) => Some first
        | _ => None
        end in
      name ← showInputBox {| prompt := "Enter a name for the method";
                             value := suggestedName |};
      match name with
      | None => ret None
      | Some name =>
          if decide (name = "") then ret None
          else ret (Some {| createGetter := false;
                            extractAll := false;
                            name := name;
                            parameters := fb_parameters feedback;
                            returnType := fb_returnType feedback |})
      end
  end.

(** [refactorOptions]: the table from the kind (its string) to the
    resolver of its options. *)
Definition refactorOptions
  : gmap string (option RefactoringFeedback → M (option RefactoringOptions)) :=
  {[ "EXTRACT_METHOD" := getExtractMethodArgs ]}.

(** ** The methods of [RefactorCommands] *)

Definition getRefactor (document : TextDocument) (refactorKind : RefactoringKind)
    (range : Range) (validateOnly : bool) (options : option RefactoringOptions)
  : M EditGetRefactoringResponse :=
  t ← now;
  editGetRefactoring
    {| file := fileName document;
       kind := refactorKind;
       length := offsetAt document t (range_end range)
                 - offsetAt document t (range_start range);
       offset := offsetAt document t (range_start range);
       options := options;
       validateOnly := validateOnly |}.

Definition allProblems (r : EditGetRefactoringResponse) : list RefactoringProblem :=
  (initialProblems r ++ optionsProblems r) ++ finalProblems r.

Definition shouldAbortRefactor (validationResult : EditGetRefactoringResponse)
  : M bool :=
  let validationProblems :=
    filter (λ e, severity e = "FATAL") (allProblems validationResult) in
  match validationProblems with
  | first :: _ =>
      showErrorMessage (message first) [];;
      ret true
  | [] => ret false
  end.

Definition shouldApplyEdits (editResult : EditGetRefactoringResponse)
    (document : TextDocument) (originalDocumentVersion : Z) : M bool :=
  let allProblems := allProblems editResult in
  let editFatals := filter (λ e, severity e = "FATAL") allProblems in
  let editWarnings :=
    filter (λ e, severity e = "ERROR" ∨ severity e = "WARNING") allProblems in
  let hasErrors :=
    bool_decide (Exists (λ e, severity e = "ERROR") allProblems) in
  match editFatals with
  | _ :: _ =>
      (* Fatal errors can never be applied, just tell the user and quit. *)
      showErrorMessage
        (join (LF +:+ LF) (unique (message <$> editFatals))
         +:+ LF +:+ LF +:+ "Your refactor was not applied.") [];;
      ret false
  | [] =>
      match change editResult with
      | None => ret false
      | Some _ =>
          applyEdits ←
            match editWarnings with
            | _ :: _ =>
                let show :=
                  if hasErrors then showErrorMessage else showWarningMessage in
                picked ← show (join (LF +:+ LF) (unique (message <$> editWarnings)))
                              [REFACTOR_ANYWAY];
                ret (bool_decide (picked = Some REFACTOR_ANYWAY))
            | [] => ret true
            end;
          t ← now;
          if applyEdits && bool_decide (version document t ≠ originalDocumentVersion)
          then
            showErrorMessage REFACTOR_FAILED_DOC_MODIFIED [];;
            ret false
          else ret applyEdits
      end
  end.

Definition performRefactor (document : option TextDocument) (range : Range)
    (refactorKind : RefactoringKind) : M unit :=
  match document with
  | None => ret tt
  | Some document =>
      t ← now;
      if isClosed document t then ret tt
      else
        let originalDocumentVersion := version document t in
        validationResult ← getRefactor document refactorKind range true None;
        abort ← shouldAbortRefactor validationResult;
        if abort : bool then ret tt
        else
          match refactorOptions !! kind_key refactorKind with
          | None => throw (NotAFunction "refactorOptions[refactorKind]")
          | Some resolver =>
              options ← resolver (feedback validationResult);
              match options with
              | None => ret tt
              | Some options =>
                  editResult ←
                    getRefactor document refactorKind range false (Some options);
                  applyEdits ←
                    shouldApplyEdits editResult document originalDocumentVersion;
                  if applyEdits : bool
                  then executeCommand APPLY_SOURCE_CHANGE document (change editResult)
                  else ret tt
              end
          end
  end.

(** One invocation of the command, from an empty history. *)
Definition run {A} (m : M A) : Outcome A * list Call := m [].

End Refactor.

(** ** Reading a run *)

(** The request [getRefactor] builds when it is called at time [t]. *)
Definition refactoringRequest {MP : Type} (document : TextDocument) (t : nat)
    (refactorKind : RefactoringKind) (range : Range) (validateOnly : bool)
    (options : option (@RefactoringOptions MP)) : @EditGetRefactoringRequest MP :=
  {| file := fileName document;
     kind := refactorKind;
     length := offsetAt document t (range_end range)
               - offsetAt document t (range_start range);
     offset := offsetAt document t (range_start range);
     options := options;
     validateOnly := validateOnly |}.

(** The input box [getExtractMethodArgs] opens for a feedback. *)
Definition nameInputBox {MP : Type} (feedback : @RefactoringFeedback MP)
  : InputBoxOptions :=
  {| prompt := "Enter a name for the method";
     value := match names feedback with
              | Some (first :: _) => Some first
              | _ => None
              end |}.

(** A request that asks for the edits (the second request of the flow). *)
Definition isEditRequest {MP SC : Type} (c : @Call MP SC) : Prop :=
  match c with
  | EditGetRefactoring req => validateOnly req = false
  | _ => False
  end.

(** A message shown in the editor window, with or without choices. *)
Definition isMessage {MP SC : Type} (c : @Call MP SC) : Prop :=
  match c with
  | ShowMessage _ _ _ => True
  | _ => False
  end.

(** An input box opened in the editor window. *)
Definition isInputBox {MP SC : Type} (c : @Call MP SC) : Prop :=
  match c with
  | ShowInputBox _ => True
  | _ => False
  end.

(** A call to the apply step. *)
Definition isApply {MP SC : Type} (c : @Call MP SC) : Prop :=
  match c with
  | ExecuteCommand _ _ _ => True
  | _ => False
  end.

(** [p] is one of the problems of the response, in any of its three lists. *)
Definition reported {MP SC : Type} (r : @EditGetRefactoringResponse MP SC)
    (p : RefactoringProblem) : Prop :=
  p ∈ initialProblems r ∨ p ∈ optionsProblems r ∨ p ∈ finalProblems r.

(** A request to the analysis server, validate-only or not. *)
Definition isRequest {MP SC : Type} (c : @Call MP SC) : Prop :=
  match c with
  | EditGetRefactoring _ => True
  | _ => False
  end.

Global Instance isRequest_dec {MP SC : Type} (c : @Call MP SC)
  : Decision (isRequest c) :=
  match c as c' return Decision (isRequest c') with
  | EditGetRefactoring _ => left I
  | ShowMessage _ _ _ => right (λ H, H)
  | ShowInputBox _ => right (λ H, H)
  | ExecuteCommand _ _ _ => right (λ H, H)
  end.

Global Instance isMessage_dec {MP SC : Type} (c : @Call MP SC)
  : Decision (isMessage c) :=
  match c as c' return Decision (isMessage c') with
  | ShowMessage _ _ _ => left I
  | EditGetRefactoring _ => right (λ H, H)
  | ShowInputBox _ => right (λ H, H)
  | ExecuteCommand _ _ _ => right (λ H, H)
  end.

Global Instance isInputBox_dec {MP SC : Type} (c : @Call MP SC)
  : Decision (isInputBox c) :=
  match c as c' return Decision (isInputBox c') with
  | ShowInputBox _ => left I
  | EditGetRefactoring _ => right (λ H, H)
  | ShowMessage _ _ _ => right (λ H, H)
  | ExecuteCommand _ _ _ => right (λ H, H)
  end.

Global Instance isApply_dec {MP SC : Type} (c : @Call MP SC)
  : Decision (isApply c) :=
  match c as c' return Decision (isApply c') with
  | ExecuteCommand _ _ _ => left I
  | EditGetRefactoring _ => right (λ H, H)
  | ShowMessage _ _ _ => right (λ H, H)
  | ShowInputBox _ => right (λ H, H)
  end.

(** The response with only the problems that satisfy [keep], in each of its
    three lists; the feedback and the change are untouched. *)
Definition keepProblems {MP SC : Type} (keep : RefactoringProblem → Prop)
    `{∀ p, Decision (keep p)} (r : @EditGetRefactoringResponse MP SC)
  : @EditGetRefactoringResponse MP SC :=
  {| initialProblems := filter keep (initialProblems r);
     optionsProblems := filter keep (optionsProblems r);
     finalProblems := filter keep (finalProblems r);
     feedback := feedback r;
     change := change r |}.

(** ** The verdicts of [shouldApplyEdits] *)

(** The problems the user may override: those of severity ERROR or WARNING. *)
Definition actionable {MP SC : Type} (r : @EditGetRefactoringResponse MP SC)
  : list RefactoringProblem :=
  filter (λ e, severity e = "ERROR" ∨ severity e = "WARNING") (allProblems r).

(** The notification shown for a response with FATAL problems. *)
Definition fatalNotice {MP SC : Type} (r : @EditGetRefactoringResponse MP SC)
  : @Call MP SC :=
  ShowMessage ErrorLevel
    (join (LF +:+ LF)
       (unique (message <$> filter (λ e, severity e = "FATAL") (allProblems r)))
     +:+ LF +:+ LF +:+ "Your refactor was not applied.") [].

Definition consentLevel {MP SC : Type} (r : @EditGetRefactoringResponse MP SC)
  : MessageLevel :=
  if bool_decide (Exists (λ e, severity e = "ERROR") (allProblems r))
  then ErrorLevel else WarningLevel.

Definition consentText {MP SC : Type} (r : @EditGetRefactoringResponse MP SC)
  : string :=
  join (LF +:+ LF) (unique (message <$> actionable r)).

(** The prompt shown for a response with problems the user may override. *)
Definition consentRequest {MP SC : Type} (r : @EditGetRefactoringResponse MP SC)
  : @Call MP SC :=
  ShowMessage (consentLevel r) (consentText r) [REFACTOR_ANYWAY].

(** The notification of the final gate. *)
Definition staleNotice {MP SC : Type} : @Call MP SC :=
  ShowMessage ErrorLevel REFACTOR_FAILED_DOC_MODIFIED [].

(** [Verdict env r d v0 t b shown]: called at time [t] on the response [r],
    [shouldApplyEdits] answers [b] after the calls [shown].  One constructor
    per path through the function. *)
Inductive Verdict {MP SC : Type} (env : @Env MP SC)
    (r : @EditGetRefactoringResponse MP SC) (d : TextDocument) (v0 : Z) (t : nat)
  : bool → list (@Call MP SC) → Prop :=
| VerdictFatal :
    filter (λ e, severity e = "FATAL") (allProblems r) ≠ [] →
    Verdict env r d v0 t false [fatalNotice r]
| VerdictNoChange :
    filter (λ e, severity e = "FATAL") (allProblems r) = [] →
    change r = None →
    Verdict env r d v0 t false []
| VerdictClean :
    filter (λ e, severity e = "FATAL") (allProblems r) = [] →
    is_Some (change r) →
    actionable r = [] →
    version d t = v0 →
    Verdict env r d v0 t true []
| VerdictCleanStale :
    filter (λ e, severity e = "FATAL") (allProblems r) = [] →
    is_Some (change r) →
    actionable r = [] →
    version d t ≠ v0 →
    Verdict env r d v0 t false [staleNotice]
| VerdictConsent :
    filter (λ e, severity e = "FATAL") (allProblems r) = [] →
    is_Some (change r) →
    actionable r ≠ [] →
    user_pick env t (consentLevel r) (consentText r) [REFACTOR_ANYWAY]
      = Some REFACTOR_ANYWAY →
    version d (S t) = v0 →
    Verdict env r d v0 t true [consentRequest r]
| VerdictConsentStale :
    filter (λ e, severity e = "FATAL") (allProblems r) = [] →
    is_Some (change r) →
    actionable r ≠ [] →
    user_pick env t (consentLevel r) (consentText r) [REFACTOR_ANYWAY]
      = Some REFACTOR_ANYWAY →
    version d (S t) ≠ v0 →
    Verdict env r d v0 t false [consentRequest r; staleNotice]
| VerdictDeclined :
    filter (λ e, severity e = "FATAL") (allProblems r) = [] →
    is_Some (change r) →
    actionable r ≠ [] →
    user_pick env t (consentLevel r) (consentText r) [REFACTOR_ANYWAY]
      ≠ Some REFACTOR_ANYWAY →
    Verdict env r d v0 t false [consentRequest r].

(** ** Scenarios *)

(** Concrete runs of the command.  A parameter of a method is given by its
    name and an edit-set by a description. *)

Module Scenario.

Definition main_dart : TextDocument :=
  {| fileName := "lib/main.dart";
     isClosed := λ _, false;
     version := λ _, 3;
     offsetAt := λ _ p, 80 * line p + character p |}.

(** The same document, edited while the validation request is pending: the
    version read at the start is 3, every later one is 4. *)
Definition main_dart_edited : TextDocument :=
  {| fileName := "lib/main.dart";
     isClosed := λ _, false;
     version := λ t, if decide (t < 1)%nat then 3 else 4;
     offsetAt := λ _ p, 80 * line p + character p |}.

(** The same document, edited while the name is being entered and put back
    before the edits arrive: the versions read are 3, 3, 4, 3, 3, ... *)
Definition main_dart_reverted : TextDocument :=
  {| fileName := "lib/main.dart";
     isClosed := λ _, false;
     version := λ t, if decide (t = 2)%nat then 4 else 3;
     offsetAt := λ _ p, 80 * line p + character p |}.

Definition selection : Range :=
  {| range_start := {| line := 2; character := 4 |};
     range_end := {| line := 2; character := 30 |} |}.

Definition suggestion : @RefactoringFeedback string :=
  {| names := Some ["extracted"]; fb_parameters := []; fb_returnType := "void" |}.

Definition computeTotal : @RefactoringOptions string :=
  {| createGetter := false; extractAll := false; name := "computeTotal";
     parameters := []; returnType := "void" |}.

Definition problem (sev msg : string) : RefactoringProblem :=
  {| severity := sev; message := msg |}.

(** A validation response without problem, with the feedback. *)
Definition valid : @EditGetRefactoringResponse string string :=
  {| initialProblems := []; optionsProblems := []; finalProblems := [];
     feedback := Some suggestion; change := None |}.

Definition edits (initial opts final : list RefactoringProblem)
    (c : option string) : @EditGetRefactoringResponse string string :=
  {| initialProblems := initial; optionsProblems := opts; finalProblems := final;
     feedback := None; change := c |}.

(** The collaborators of a scenario: the server answers [validation] to the
    validate-only request and [edit] to the other one, the user always picks
    [pick] and enters [entry]. *)
Definition scripted (validation edit : @EditGetRefactoringResponse string string)
    (pick entry : option string) : @Env string string :=
  {| server_response := λ _ req, if validateOnly req then validation else edit;
     user_pick := λ _ _ _ _, pick;
     user_entry := λ _ _, entry |}.

Definition validationRequest (k : RefactoringKind) : @EditGetRefactoringRequest string :=
  {| file := "lib/main.dart"; kind := k; length := 26; offset := 164;
     options := None; validateOnly := true |}.

Definition editRequest : @EditGetRefactoringRequest string :=
  {| file := "lib/main.dart"; kind := EXTRACT_METHOD; length := 26; offset := 164;
     options := Some computeTotal; validateOnly := false |}.

Definition namePrompt : InputBoxOptions :=
  {| prompt := "Enter a name for the method"; value := Some "extracted" |}.

(** The history of a run up to the name prompt, excluded. *)
Definition validated : list (@Call string string) :=
  [EditGetRefactoring (validationRequest EXTRACT_METHOD)].

(** The history of a run up to the edit request, excluded. *)
Definition asked : list (@Call string string) :=
  [EditGetRefactoring (validationRequest EXTRACT_METHOD); ShowInputBox namePrompt].

(** Nothing wrong: the edits are applied. *)
Definition smooth : @Env string string :=
  scripted valid (edits [] [] [] (Some "extract computeTotal"))
    None (Some "computeTotal").

(** The validation fails: one warning, then two fatal problems. *)
Definition invalid : @Env string string :=
  scripted
    {| initialProblems := [problem "WARNING" "unused variable"];
       optionsProblems := [problem "FATAL" "selection is not a statement"];
       finalProblems := [problem "FATAL" "file has errors"];
       feedback := None; change := None |}
    (edits [] [] [] None) None None.

(** The edit request fails: the same fatal problem twice, and another. *)
Definition fatal_edit : @Env string string :=
  scripted valid
    (edits [problem "FATAL" "name is taken"]
           [problem "WARNING" "shadows a field"; problem "FATAL" "name is taken"]
           [problem "FATAL" "conflicting return"]
           (Some "extract computeTotal"))
    (Some "Refactor Anyway") (Some "computeTotal").

(** The edit response has a warning and no change. *)
Definition no_change : @Env string string :=
  scripted valid
    (edits [problem "WARNING" "shadows a field"] [] [] None)
    (Some "Refactor Anyway") (Some "computeTotal").

(** The edit response has warnings and an error; the user consents. *)
Definition consenting : @Env string string :=
  scripted valid
    (edits [problem "WARNING" "shadows a field"]
           [problem "ERROR" "unresolved type"]
           [problem "WARNING" "shadows a field"]
           (Some "extract computeTotal"))
    (Some "Refactor Anyway") (Some "computeTotal").

(** The user cancels the name prompt, or enters nothing. *)
Definition cancelling : @Env string string :=
  scripted valid (edits [] [] [] (Some "extract computeTotal")) None None.

Definition entering_nothing : @Env string string :=
  scripted valid (edits [] [] [] (Some "extract computeTotal")) None (Some "").

Definition consentPrompt : @Call string string :=
  ShowMessage ErrorLevel
    ("shadows a field" +:+ LF +:+ LF +:+ "unresolved type")
    ["Refactor Anyway"].


(** The validation response carries no feedback. *)
Definition without_feedback : @Env string string :=
  scripted
    {| initialProblems := []; optionsProblems := []; finalProblems := [];
       feedback := None; change := None |}
    (edits [] [] [] (Some "extract computeTotal"))
    None (Some "computeTotal").

(** The edit response has warnings and an error; the user dismisses the
    prompt. *)
Definition declining : @Env string string :=
  scripted valid
    (edits [problem "WARNING" "shadows a field"]
           [problem "ERROR" "unresolved type"]
           [problem "WARNING" "shadows a field"]
           (Some "extract computeTotal"))
    None (Some "computeTotal").

(** As [consenting], with a user who also answers the notifications. *)
Definition answering : @Env string string :=
  {| server_response := server_response consenting;
     user_pick := λ _ _ _ items,
       match items with
       | [] => Some "Close"
       | _ :: _ => Some "Refactor Anyway"
       end;
     user_entry := user_entry consenting |}.

End Scenario.

(** ** De-duplication *)

Section Unique.
Context {A : Type} `{EqDecision A}.
Implicit Types (x : A) (l seen : list A).

Lemma unique_from_NoDup l : ∀ seen, NoDup seen → NoDup (unique_from seen l).
Proof.
  induction l as [|y l IH]; intros seen Hseen; simpl; [done|].
  apply IH. case_decide; [done|].
  apply NoDup_app. split_and!; [done| |apply NoDup_singleton].
  intros z Hz ->%list_elem_of_singleton. done.
Qed.

Lemma unique_from_elem_of l : ∀ seen x,
  x ∈ unique_from seen l ↔ x ∈ seen ∨ x ∈ l.
Proof.
  induction l as [|y l IH]; intros seen x; simpl.
  - rewrite elem_of_nil. tauto.
  - rewrite IH, elem_of_cons. case_decide.
    + split; [tauto|]. intros [?|[->|?]]; tauto.
    + rewrite elem_of_app, list_elem_of_singleton. tauto.
Qed.

Lemma unique_NoDup l : NoDup (unique l).
Proof. apply unique_from_NoDup, NoDup_nil_2. Qed.

Lemma unique_elem_of l x : x ∈ unique l ↔ x ∈ l.
Proof.
  unfold unique. rewrite unique_from_elem_of, elem_of_nil. tauto.
Qed.

Lemma unique_nil_inv l : unique l = [] → l = [].
Proof.
  destruct l as [|y l]; [done|]. intros Hu.
  assert (y ∈ unique (y :: l)) as Hy by (apply unique_elem_of; left).
  rewrite Hu in Hy. by apply elem_of_nil in Hy.
Qed.
End Unique.

(** ** Decomposing a history around one call *)

Section Decompose.
Context {A : Type} (P : A → Prop).
Implicit Types (l h rest : list A).

Lemma decompose_absent l h b rest :
  Forall (λ x, ¬ P x) l → l = h ++ b :: rest → ¬ P b.
Proof.
  intros Hl -> Hb. apply Forall_app in Hl as [_ Hl].
  apply Forall_cons in Hl as [Hl _]. done.
Qed.

Lemma decompose_unique l1 : ∀ a l2 h b rest,
  l1 ++ a :: l2 = h ++ b :: rest →
  Forall (λ x, ¬ P x) l1 → Forall (λ x, ¬ P x) l2 → P b →
  h = l1 ∧ b = a ∧ rest = l2.
Proof.
  induction l1 as [|x l1 IH]; intros a l2 h b rest Heq H1 H2 Hb.
  - destruct h as [|y h]; simpl in Heq.
    + by simplify_eq.
    + injection Heq as -> ->. exfalso.
      by eapply (decompose_absent (h ++ b :: rest)).
  - apply Forall_cons in H1 as [Hx H1].
    destruct h as [|y h]; simpl in Heq; injection Heq as <- Heq.
    + done.
    + destruct (IH _ _ _ _ _ Heq H1 H2 Hb) as (-> & -> & ->). done.
Qed.
End Decompose.

(** ** What each function does to a history *)

Section Steps.
Context {MP SC : Type}.
Variable env : @Env MP SC.
Implicit Types (h : list (@Call MP SC)) (r : @EditGetRefactoringResponse MP SC).
Implicit Types (d : TextDocument).

Lemma bind_eq {A B} (m : M A) (k : A → M B) h :
  (m ≫= k) h = match m h with
               | (Returned a, h') => k a h'
               | (Threw e, h') => (Threw e, h')
               end.
Proof. reflexivity. Qed.

Lemma showErrorMessage_eq msg items h :
  showErrorMessage env msg items h
  = (Returned (user_pick env (List.length h) ErrorLevel msg items),
     h ++ [ShowMessage ErrorLevel msg items]).
Proof. reflexivity. Qed.

Lemma showWarningMessage_eq msg items h :
  showWarningMessage env msg items h
  = (Returned (user_pick env (List.length h) WarningLevel msg items),
     h ++ [ShowMessage WarningLevel msg items]).
Proof. reflexivity. Qed.

Lemma getRefactor_eq d k range vo opts h :
  getRefactor env d k range vo opts h
  = (Returned (server_response env (List.length h)
                 (refactoringRequest d (List.length h) k range vo opts)),
     h ++ [EditGetRefactoring (refactoringRequest d (List.length h) k range vo opts)]).
Proof. reflexivity. Qed.

Lemma shouldAbortRefactor_eq r h :
  shouldAbortRefactor env r h
  = match filter (λ e, severity e = "FATAL") (allProblems r) with
    | first :: _ =>
        (Returned true, h ++ [ShowMessage ErrorLevel (message first) []])
    | [] => (Returned false, h)
    end.
Proof.
  unfold shouldAbortRefactor.
  destruct (filter _ (allProblems r)); reflexivity.
Qed.

Lemma getExtractMethodArgs_eq fb h :
  getExtractMethodArgs env (Some fb) h
  = (Returned
       match user_entry env (List.length h) (nameInputBox fb) with
       | None => None
       | Some name =>
           if decide (name = "") then None
           else Some {| createGetter := false; extractAll := false;
                        name := name;
                        parameters := fb_parameters fb;
                        returnType := fb_returnType fb |}
       end,
     h ++ [ShowInputBox (nameInputBox fb)]).
Proof.
  unfold getExtractMethodArgs. rewrite bind_eq. fold (nameInputBox fb).
  change (showInputBox env (nameInputBox fb) h)
    with (Returned (user_entry env (List.length h) (nameInputBox fb)),
          h ++ [ShowInputBox (nameInputBox fb)] : list (@Call MP SC)).
  destruct (user_entry _ _ _) as [name|]; [|reflexivity].
  destruct (decide (name = "")); reflexivity.
Qed.

Lemma refactorOptions_lookup k :
  refactorOptions env !! kind_key k
  = match k with
    | EXTRACT_METHOD => Some (getExtractMethodArgs env)
    | _ => None
    end.
Proof. destruct k; reflexivity. Qed.

(** [shouldApplyEdits], branch by branch. *)

Lemma shouldApplyEdits_fatal r d v0 h first others :
  filter (λ e, severity e = "FATAL") (allProblems r) = first :: others →
  shouldApplyEdits env r d v0 h
  = (Returned false,
     h ++ [ShowMessage ErrorLevel
             (join (LF +:+ LF) (unique (message <$> first :: others))
              +:+ LF +:+ LF +:+ "Your refactor was not applied.") []]).
Proof. intros Hf. unfold shouldApplyEdits. rewrite Hf. reflexivity. Qed.

Lemma shouldApplyEdits_no_change r d v0 h :
  filter (λ e, severity e = "FATAL") (allProblems r) = [] →
  change r = None →
  shouldApplyEdits env r d v0 h = (Returned false, h).
Proof. intros Hf Hc. unfold shouldApplyEdits. rewrite Hf, Hc. reflexivity. Qed.

Lemma shouldApplyEdits_clean r d v0 h c :
  filter (λ e, severity e = "FATAL") (allProblems r) = [] →
  change r = Some c →
  filter (λ e, severity e = "ERROR" ∨ severity e = "WARNING") (allProblems r) = [] →
  shouldApplyEdits env r d v0 h
  = if decide (version d (List.length h) = v0)
    then (Returned true, h)
    else (Returned false, h ++ [ShowMessage ErrorLevel REFACTOR_FAILED_DOC_MODIFIED []]).
Proof.
  intros Hf Hc Hw. unfold shouldApplyEdits. rewrite Hf, Hc, Hw.
  rewrite bind_eq. cbn -[REFACTOR_FAILED_DOC_MODIFIED].
  rewrite bind_eq. cbn -[REFACTOR_FAILED_DOC_MODIFIED].
  case_decide.
  - rewrite bool_decide_eq_false_2 by tauto. reflexivity.
  - rewrite bool_decide_eq_true_2 by done. reflexivity.
Qed.

Lemma shouldApplyEdits_prompt r d v0 h c first others :
  filter (λ e, severity e = "FATAL") (allProblems r) = [] →
  change r = Some c →
  filter (λ e, severity e = "ERROR" ∨ severity e = "WARNING") (allProblems r)
    = first :: others →
  let level := if bool_decide (Exists (λ e, severity e = "ERROR") (allProblems r))
               then ErrorLevel else WarningLevel in
  let text := join (LF +:+ LF) (unique (message <$> first :: others)) in
  let asked := h ++ [ShowMessage level text [REFACTOR_ANYWAY]] in
  shouldApplyEdits env r d v0 h
  = if decide (user_pick env (List.length h) level text [REFACTOR_ANYWAY]
               = Some REFACTOR_ANYWAY)
    then if decide (version d (List.length asked) = v0)
         then (Returned true, asked)
         else (Returned false,
               asked ++ [ShowMessage ErrorLevel REFACTOR_FAILED_DOC_MODIFIED []])
    else (Returned false, asked).
Proof.
  intros Hf Hc Hw level text asked. unfold shouldApplyEdits.
  rewrite Hf, Hc, Hw. rewrite !bind_eq.
  fold text. subst level asked. clearbody text.
  destruct (bool_decide (Exists _ _)).
  - rewrite showErrorMessage_eq. cbn -[REFACTOR_FAILED_DOC_MODIFIED REFACTOR_ANYWAY].
    case_decide as Hp.
    + rewrite bool_decide_eq_true_2 by done.
      rewrite bind_eq. cbn -[REFACTOR_FAILED_DOC_MODIFIED REFACTOR_ANYWAY].
      case_decide.
      * rewrite bool_decide_eq_false_2 by tauto. reflexivity.
      * rewrite bool_decide_eq_true_2 by done. reflexivity.
    + rewrite bool_decide_eq_false_2 by done. reflexivity.
  - rewrite showWarningMessage_eq. cbn -[REFACTOR_FAILED_DOC_MODIFIED REFACTOR_ANYWAY].
    case_decide as Hp.
    + rewrite bool_decide_eq_true_2 by done.
      rewrite bind_eq. cbn -[REFACTOR_FAILED_DOC_MODIFIED REFACTOR_ANYWAY].
      case_decide.
      * rewrite bool_decide_eq_false_2 by tauto. reflexivity.
      * rewrite bool_decide_eq_true_2 by done. reflexivity.
    + rewrite bool_decide_eq_false_2 by done. reflexivity.
Qed.
End Steps.

(** ** The flow of [performRefactor] *)

Section Flow.
Context {MP SC : Type}.
Variable env : @Env MP SC.
Implicit Types (h rest : list (@Call MP SC)) (r : @EditGetRefactoringResponse MP SC).
Implicit Types (d : TextDocument) (doc : option TextDocument).

(** Whatever the response, [shouldApplyEdits] returns a boolean and adds
    only messages to the history. *)
Lemma shouldApplyEdits_history r d v0 h :
  ∃ b tail,
    shouldApplyEdits env r d v0 h = (Returned b, h ++ tail)
    ∧ Forall isMessage tail.
Proof.
  destruct (filter (λ e, severity e = "FATAL") (allProblems r))
    as [|f fs] eqn:Hf.
  - destruct (change r) as [c|] eqn:Hc.
    + destruct (filter (λ e, severity e = "ERROR" ∨ severity e = "WARNING")
                  (allProblems r)) as [|w ws] eqn:Hw.
      * rewrite (shouldApplyEdits_clean env r d v0 h c Hf Hc Hw).
        case_decide.
        -- exists true, []. by rewrite app_nil_r.
        -- eexists false, [_]. split; [reflexivity|]. by repeat constructor.
      * rewrite (shouldApplyEdits_prompt env r d v0 h c w ws Hf Hc Hw).
        cbv zeta. repeat case_decide.
        -- eexists true, [_]. split; [reflexivity|]. by repeat constructor.
        -- eexists false, [_; _]. rewrite <- app_assoc.
           split; [reflexivity|]. by repeat constructor.
        -- eexists false, [_]. split; [reflexivity|]. by repeat constructor.
    + rewrite (shouldApplyEdits_no_change env r d v0 h Hf Hc).
      exists false, []. by rewrite app_nil_r.
  - rewrite (shouldApplyEdits_fatal env r d v0 h f fs Hf).
    eexists false, [_]. split; [reflexivity|]. by repeat constructor.
Qed.

Lemma messages_not l (P : @Call MP SC → Prop) :
  (∀ c, isMessage c → ¬ P c) → Forall isMessage l → Forall (λ c, ¬ P c) l.
Proof. intros HP Hl. eapply Forall_impl; [exact Hl|exact HP]. Qed.

Lemma message_not_edit_request (c : @Call MP SC) : isMessage c → ¬ isEditRequest c.
Proof. destruct c; simpl; tauto. Qed.

Lemma message_not_apply (c : @Call MP SC) : isMessage c → ¬ isApply c.
Proof. destruct c; simpl; tauto. Qed.

Lemma message_not_input_box (c : @Call MP SC) : isMessage c → ¬ isInputBox c.
Proof. destruct c; simpl; tauto. Qed.

(** The run of the command on an open document, written out: the two
    requests are issued at times 0 and 2, the name is asked at time 1. *)
Lemma performRefactor_run d range k :
  isClosed d 0 = false →
  let vreq := refactoringRequest d 0 k range true None in
  let vres := server_response env 0 vreq in
  run (performRefactor env (Some d) range k)
  = match filter (λ e, severity e = "FATAL") (allProblems vres) with
    | first :: _ =>
        (Returned tt,
         [EditGetRefactoring vreq; ShowMessage ErrorLevel (message first) []])
    | [] =>
        match k with
        | EXTRACT_METHOD =>
            match feedback vres with
            | None => (Threw (PropertyOfUndefined "names"), [EditGetRefactoring vreq])
            | Some fb =>
                let asked := [EditGetRefactoring vreq; ShowInputBox (nameInputBox fb)] in
                match user_entry env 1 (nameInputBox fb) with
                | None => (Returned tt, asked)
                | Some name =>
                    if decide (name = "") then (Returned tt, asked)
                    else
                      let ereq :=
                        refactoringRequest d 2 k range false
                          (Some {| createGetter := false; extractAll := false;
                                   name := name;
                                   parameters := fb_parameters fb;
                                   returnType := fb_returnType fb |}) in
                      let eres := server_response env 2 ereq in
                      match shouldApplyEdits env eres d (version d 0)
                              (asked ++ [EditGetRefactoring ereq]) with
                      | (Returned true, h') =>
                          (Returned tt,
                           h' ++ [ExecuteCommand APPLY_SOURCE_CHANGE d (change eres)])
                      | (Returned false, h') => (Returned tt, h')
                      | (Threw e, h') => (Threw e, h')
                      end
                end
            end
        | _ => (Threw (NotAFunction "refactorOptions[refactorKind]"),
                [EditGetRefactoring vreq])
        end
    end.
Proof.
  intros Hopen vreq vres. unfold run, performRefactor.
  rewrite bind_eq. change (now []) with (Returned 0%nat, [] : list (@Call MP SC)).
  cbv beta iota. rewrite Hopen.
  rewrite bind_eq, getRefactor_eq. cbv beta iota.
  change (List.length []) with 0%nat. fold vreq. fold vres. simpl app.
  rewrite bind_eq, shouldAbortRefactor_eq.
  destruct (filter _ (allProblems vres)) as [|f fs]; [|reflexivity].
  cbv beta iota. rewrite refactorOptions_lookup.
  destruct k; try reflexivity.
  rewrite bind_eq.
  destruct (feedback vres) as [fb|]; [|reflexivity].
  rewrite getExtractMethodArgs_eq. cbn [List.length app]. cbv beta iota.
  destruct (user_entry env 1 (nameInputBox fb)) as [name|]; [|reflexivity].
  destruct (decide (name = "")); [reflexivity|].
  rewrite bind_eq, getRefactor_eq. cbn [List.length app]. cbv beta iota.
  rewrite bind_eq.
  destruct (shouldApplyEdits _ _ _ _ _) as [[[|]|e] h']; reflexivity.
Qed.

Lemma performRefactor_no_document range k :
  run (performRefactor env None range k) = (Returned tt, []).
Proof. reflexivity. Qed.

Lemma performRefactor_closed d range k :
  isClosed d 0 = true →
  run (performRefactor env (Some d) range k) = (Returned tt, []).
Proof.
  intros Hclosed. unfold run, performRefactor. rewrite bind_eq.
  change (now []) with (Returned 0%nat, [] : list (@Call MP SC)).
  cbv beta iota. rewrite Hclosed. reflexivity.
Qed.

(** The edit request of a run: where it stands, what it carries and what
    follows it. *)
Lemma edit_request_inv d range k o h req rest :
  run (performRefactor env (Some d) range k)
    = (o, h ++ EditGetRefactoring req :: rest) →
  validateOnly req = false →
  let vreq := refactoringRequest d 0 k range true None in
  let vres := server_response env 0 vreq in
  ∃ fb entered b tail,
    isClosed d 0 = false ∧ k = EXTRACT_METHOD
    ∧ filter (λ e, severity e = "FATAL") (allProblems vres) = []
    ∧ feedback vres = Some fb
    ∧ user_entry env 1 (nameInputBox fb) = Some entered ∧ entered ≠ ""
    ∧ h = [EditGetRefactoring vreq; ShowInputBox (nameInputBox fb)]
    ∧ req = refactoringRequest d 2 k range false
              (Some {| createGetter := false; extractAll := false;
                       name := entered;
                       parameters := fb_parameters fb;
                       returnType := fb_returnType fb |})
    ∧ shouldApplyEdits env (server_response env 2 req) d (version d 0)
        (h ++ [EditGetRefactoring req])
      = (Returned b, (h ++ [EditGetRefactoring req]) ++ tail)
    ∧ Forall (λ c, ¬ isApply c) tail
    ∧ o = Returned tt
    ∧ rest = tail ++ (if b then [ExecuteCommand APPLY_SOURCE_CHANGE d
                                   (change (server_response env 2 req))]
                      else []).
Proof.
  intros Hrun Hvo vreq vres.
  destruct (isClosed d 0) eqn:Hopen.
  { rewrite performRefactor_closed in Hrun by done.
    injection Hrun as _ Hh. by destruct h. }
  rewrite (performRefactor_run d range k Hopen) in Hrun.
  fold vreq vres in Hrun.
  assert (¬ isEditRequest (EditGetRefactoring vreq : @Call MP SC)) as Hv
    by (simpl; done).
  assert (isEditRequest (EditGetRefactoring req : @Call MP SC)) as He by done.
  destruct (filter _ (allProblems vres)) as [|f fs] eqn:Hf.
  2:{ injection Hrun as _ Hh. exfalso.
      eapply (decompose_absent isEditRequest); [|exact Hh|exact He].
      repeat constructor; [done|simpl; tauto]. }
  assert (∀ e, (e, [EditGetRefactoring vreq]) = (o, h ++ EditGetRefactoring req :: rest)
               → False) as Hstop.
  { intros e [= _ Hh].
    eapply (decompose_absent isEditRequest); [|exact Hh|exact He].
    by repeat constructor. }
  destruct k; try (by apply Hstop in Hrun).
  destruct (feedback vres) as [fb|] eqn:Hfb; [|by apply Hstop in Hrun].
  cbv zeta in Hrun.
  assert (Forall (λ c : @Call MP SC, ¬ isEditRequest c)
            [EditGetRefactoring vreq; ShowInputBox (nameInputBox fb)]) as Hasked
    by (repeat constructor; [done|simpl; tauto]).
  assert (∀ e, (e, [EditGetRefactoring vreq; ShowInputBox (nameInputBox fb)])
               = (o, h ++ EditGetRefactoring req :: rest) → False) as Hquit.
  { intros e [= _ Hh].
    by eapply (decompose_absent isEditRequest); [|exact Hh|exact He]. }
  destruct (user_entry env 1 (nameInputBox fb)) as [entered|] eqn:Hentry;
    [|by apply Hquit in Hrun].
  destruct (decide (entered = "")) as [|Hne]; [by apply Hquit in Hrun|].
  set (ereq := refactoringRequest d 2 EXTRACT_METHOD range false _) in Hrun.
  destruct (shouldApplyEdits_history (server_response env 2 ereq) d (version d 0)
              ([EditGetRefactoring vreq; ShowInputBox (nameInputBox fb)]
               ++ [EditGetRefactoring ereq]))
    as (b & tail & Hs & Hmsg).
  pose proof (messages_not _ _ message_not_edit_request Hmsg) as Htail.
  pose proof (messages_not _ _ message_not_apply Hmsg) as Hnoapply.
  rewrite Hs in Hrun.
  assert (∃ extra, o = Returned tt
            ∧ extra = (if b then [ExecuteCommand APPLY_SOURCE_CHANGE d
                                    (change (server_response env 2 ereq))]
                       else [])
            ∧ [EditGetRefactoring vreq; ShowInputBox (nameInputBox fb)]
              ++ EditGetRefactoring ereq :: (tail ++ extra)
              = h ++ EditGetRefactoring req :: rest) as (extra & -> & Hextra & Hh).
  { destruct b; injection Hrun as <- <-; eexists; split_and!; try reflexivity.
    simpl. by rewrite app_nil_r. }
  apply (decompose_unique isEditRequest) in Hh as (-> & [= ->] & ->);
    [|done| |done].
  2:{ apply Forall_app. split; [done|]. subst extra.
      destruct b; repeat constructor. simpl. tauto. }
  exists fb, entered, b, tail. subst extra. split_and!; done.
Qed.
End Flow.

(** ** Problems of a response *)

Section Problems.
Context {MP SC : Type}.
Implicit Types (r : @EditGetRefactoringResponse MP SC) (p : RefactoringProblem).

Lemma reported_allProblems r p : reported r p ↔ p ∈ allProblems r.
Proof. unfold reported, allProblems. rewrite !elem_of_app. tauto. Qed.

Lemma filter_nil_iff {A} (P : A → Prop) `{∀ x, Decision (P x)} (l : list A) :
  filter P l = [] ↔ ∀ x, x ∈ l → ¬ P x.
Proof.
  split.
  - intros Hnil x Hx HP. by eapply (filter_nil_not_elem_of P l x).
  - intros Hall. destruct (filter P l) as [|y l'] eqn:Hf; [done|].
    assert (y ∈ filter P l) as Hy by (rewrite Hf; left).
    apply list_elem_of_filter in Hy as [HP Hy]. by apply Hall in Hy.
Qed.

Lemma filter_all {A} (P : A → Prop) `{∀ x, Decision (P x)} (l : list A) :
  (∀ x, x ∈ l → P x) → filter P l = l.
Proof.
  induction l as [|x l IH]; intros Hall; [done|].
  rewrite filter_cons_True by (apply Hall; left).
  f_equal. apply IH. intros y Hy. apply Hall. by right.
Qed.

Lemma no_fatal_filter r :
  (∀ p, reported r p → severity p ≠ "FATAL")
  ↔ filter (λ e, severity e = "FATAL") (allProblems r) = [].
Proof.
  rewrite filter_nil_iff. split; intros Hall p Hp.
  - apply Hall. by apply reported_allProblems.
  - apply Hall. by apply reported_allProblems.
Qed.

Lemma some_fatal_filter r :
  (∃ p, reported r p ∧ severity p = "FATAL")
  → ∃ first others,
      filter (λ e, severity e = "FATAL") (allProblems r) = first :: others.
Proof.
  intros (p & Hp & Hsev).
  destruct (filter _ (allProblems r)) as [|f fs] eqn:Hf; [|by eauto].
  exfalso. apply (filter_nil_not_elem_of _ _ p Hf Hsev).
  by apply reported_allProblems.
Qed.

Lemma not_apply_not_elem_of (l : list (@Call MP SC)) command d a :
  Forall (λ c, ¬ isApply c) l → ExecuteCommand command d a ∉ l.
Proof.
  intros Hl Hin. rewrite Forall_forall in Hl. by apply (Hl _ Hin).
Qed.
End Problems.

(** ** Properties of the protocol *)

Section Protocol.
Context {MP SC : Type}.
Implicit Types (env : @Env MP SC) (h rest : list (@Call MP SC)).
Implicit Types (r : @EditGetRefactoringResponse MP SC).
Implicit Types (d : TextDocument) (doc : option TextDocument).

(** What a [true] from [shouldApplyEdits] means. *)
Lemma shouldApplyEdits_true_inv env r d v0 h h' :
  shouldApplyEdits env r d v0 h = (Returned true, h') →
  filter (λ e, severity e = "FATAL") (allProblems r) = []
  ∧ is_Some (change r)
  ∧ version d (List.length h') = v0.
Proof.
  intros Hs.
  destruct (filter (λ e, severity e = "FATAL") (allProblems r))
    as [|f fs] eqn:Hf.
  2:{ by rewrite (shouldApplyEdits_fatal env r d v0 h f fs Hf) in Hs. }
  destruct (change r) as [c|] eqn:Hc.
  2:{ by rewrite (shouldApplyEdits_no_change env r d v0 h Hf Hc) in Hs. }
  split_and!; [done|by eexists|].
  destruct (filter (λ e, severity e = "ERROR" ∨ severity e = "WARNING")
              (allProblems r)) as [|w ws] eqn:Hw.
  - rewrite (shouldApplyEdits_clean env r d v0 h c Hf Hc Hw) in Hs.
    case_decide; by simplify_eq.
  - rewrite (shouldApplyEdits_prompt env r d v0 h c w ws Hf Hc Hw) in Hs.
    cbv zeta in Hs. repeat case_decide; by simplify_eq.
Qed.

(** C1.  The edit-set reaches the apply step only through the final gate:
    whenever a run of [performRefactor] calls the apply command, the call is
    the last of the run and carries the document and the [change] of the
    response to the edit request; [shouldApplyEdits] answered [true] on that
    response; the response reports no problem of severity FATAL in any of
    its three lists; and the version of the document read at that moment
    (after every earlier call of the run) equals the version captured at
    the start, before the validation request was issued. *)
Theorem apply_only_without_fatal_and_unchanged env doc range k command d a :
  ExecuteCommand command d a ∈ (run (performRefactor env doc range k)).2 →
  ∃ h req mid,
    (run (performRefactor env doc range k)).2
      = h ++ EditGetRefactoring req :: mid ++ [ExecuteCommand command d a]
    ∧ doc = Some d ∧ command = "_dart.applySourceChange"
    ∧ validateOnly req = false
    ∧ let editResult := server_response env (List.length h) req in
      a = change editResult
      ∧ shouldApplyEdits env editResult d (version d 0)
          (h ++ [EditGetRefactoring req])
        = (Returned true, h ++ EditGetRefactoring req :: mid)
      ∧ (∀ p, reported editResult p → severity p ≠ "FATAL")
      ∧ version d (List.length (h ++ EditGetRefactoring req :: mid))
        = version d 0.
Proof.
  destruct doc as [d'|]; [|by rewrite performRefactor_no_document, elem_of_nil].
  destruct (isClosed d' 0) eqn:Hopen;
    [by rewrite performRefactor_closed, elem_of_nil|].
  rewrite (performRefactor_run env d' range k Hopen).
  set (vreq := refactoringRequest d' 0 k range true None).
  set (vres := server_response env 0 vreq).
  destruct (filter _ (allProblems vres)) as [|f fs].
  2:{ intros Hin. exfalso. revert Hin. apply not_apply_not_elem_of.
      repeat constructor; simpl; tauto. }
  assert (∀ e, ExecuteCommand command d a
               ∈ ((e, [EditGetRefactoring vreq]) : Outcome () * list (@Call MP SC)).2
               → False) as Hstop.
  { intros e. apply not_apply_not_elem_of. repeat constructor. simpl. tauto. }
  destruct k; try (by intros Hin; apply Hstop in Hin).
  destruct (feedback vres) as [fb|]; [|by intros Hin; apply Hstop in Hin].
  cbv zeta.
  assert (Forall (λ c : @Call MP SC, ¬ isApply c)
            [EditGetRefactoring vreq; ShowInputBox (nameInputBox fb)]) as Hasked
    by (repeat constructor; simpl; tauto).
  destruct (user_entry env 1 (nameInputBox fb)) as [entered|];
    [|by intros Hin; apply not_apply_not_elem_of in Hin].
  destruct (decide (entered = ""));
    [by intros Hin; apply not_apply_not_elem_of in Hin|].
  set (ereq := refactoringRequest d' 2 EXTRACT_METHOD range false _).
  destruct (shouldApplyEdits_history env (server_response env 2 ereq) d'
              (version d' 0)
              ([EditGetRefactoring vreq; ShowInputBox (nameInputBox fb)]
               ++ [EditGetRefactoring ereq]))
    as (b & tail & Hs & Hmsg).
  pose proof (messages_not _ _ message_not_apply Hmsg) as Hnoapply.
  rewrite Hs. destruct b; simpl.
  2:{ intros Hin. exfalso. revert Hin. apply not_apply_not_elem_of.
      repeat constructor; simpl; tauto || done. }
  intros Hin.
  assert ((ExecuteCommand command d a : @Call MP SC)
          = ExecuteCommand APPLY_SOURCE_CHANGE d' (change (server_response env 2 ereq)))
    as [= -> -> ->].
  { rewrite !elem_of_cons, elem_of_app, list_elem_of_singleton in Hin.
    destruct Hin as [?|[?|[?|[Hin|?]]]]; try done.
    by apply not_apply_not_elem_of in Hin. }
  pose proof (shouldApplyEdits_true_inv _ _ _ _ _ _ Hs) as (Hf & Hc & Hv).
  exists [EditGetRefactoring vreq; ShowInputBox (nameInputBox fb)], ereq, tail.
  split_and!; try done.
  by apply no_fatal_filter.
Qed.

(** C2, as the code has it.  For a kind without resolver in
    [refactorOptions], no run of the command issues a request carrying
    options.  On an open document, once the validation reports no FATAL
    problem, the lookup yields nothing and calling it raises: the invocation
    ends with that exception instead of returning.  The validation request is
    then the only call of the run, so no message is shown, no options are
    produced and the apply step is not reached. *)
Theorem unregistered_kind_raises env d range k :
  refactorOptions env !! kind_key k = None →
  let vreq := refactoringRequest d 0 k range true None in
  (∀ doc req,
     EditGetRefactoring req ∈ (run (performRefactor env doc range k)).2 →
     options req = None)
  ∧ (isClosed d 0 = false →
     (∀ p, reported (server_response env 0 vreq) p → severity p ≠ "FATAL") →
     run (performRefactor env (Some d) range k)
     = (Threw (NotAFunction "refactorOptions[refactorKind]"),
        [EditGetRefactoring vreq])
     ∧ validateOnly vreq = true).
Proof.
  intros Hlookup vreq. rewrite refactorOptions_lookup in Hlookup.
  split.
  - intros [d'|] req; [|by rewrite performRefactor_no_document, elem_of_nil].
    destruct (isClosed d' 0) eqn:Hopen;
      [by rewrite performRefactor_closed, elem_of_nil|].
    rewrite (performRefactor_run env d' range k Hopen).
    destruct (filter _ (allProblems _)) as [|f fs]; destruct k; try done; simpl;
      rewrite ?elem_of_cons, elem_of_nil; intros Hin;
      repeat (destruct Hin as [Hin|Hin]); by simplify_eq.
  - intros Hopen Hclean. split; [|done].
    rewrite (performRefactor_run env d range k Hopen). fold vreq.
    apply no_fatal_filter in Hclean. rewrite Hclean.
    by destruct k.
Qed.

(** C3.  When the response to the validation request reports at least one
    FATAL problem, the run is the validation request followed by one error
    message without choices, and the command returns: the resolver is not
    invoked (no input box) and no second request is sent.  The message is
    that of the first FATAL problem of [initialProblems], then
    [optionsProblems], then [finalProblems]: no problem before it in that
    order is FATAL. *)
Theorem validation_fatal_aborts env d range k :
  isClosed d 0 = false →
  let vreq := refactoringRequest d 0 k range true None in
  let validationResult := server_response env 0 vreq in
  (∃ p, reported validationResult p ∧ severity p = "FATAL") →
  ∃ before first after,
    (initialProblems validationResult ++ optionsProblems validationResult)
      ++ finalProblems validationResult = before ++ first :: after
    ∧ Forall (λ e, severity e ≠ "FATAL") before
    ∧ severity first = "FATAL"
    ∧ run (performRefactor env (Some d) range k)
      = (Returned tt,
         [EditGetRefactoring vreq; ShowMessage ErrorLevel (message first) []])
    ∧ validateOnly vreq = true.
Proof.
  intros Hopen vreq validationResult Hfatal.
  destruct (some_fatal_filter _ Hfatal) as (first & others & Hf).
  assert (head (filter (λ e, severity e = "FATAL") (allProblems validationResult))
          = Some first) as Hhead by (by rewrite Hf).
  apply head_filter_Some in Hhead as (before & after & Hall & Hbefore).
  assert (first ∈ filter (λ e, severity e = "FATAL") (allProblems validationResult))
    as [Hsev _]%list_elem_of_filter by (rewrite Hf; left).
  exists before, first, after. split_and!; try done.
  rewrite (performRefactor_run env d range k Hopen).
  fold vreq validationResult. by rewrite Hf.
Qed.

(** The edit phase of a run: once the edit request is issued, what follows
    is what [shouldApplyEdits] adds, then the apply call if it said so. *)
Lemma edit_phase env d range k o h req rest :
  run (performRefactor env (Some d) range k)
    = (o, h ++ EditGetRefactoring req :: rest) →
  validateOnly req = false →
  Forall (λ c, ¬ isApply c) (h ++ [EditGetRefactoring req])
  ∧ Forall (λ c, ¬ isMessage c) (h ++ [EditGetRefactoring req])
  ∧ ∀ b tail,
      shouldApplyEdits env (server_response env (List.length h) req) d
        (version d 0) (h ++ [EditGetRefactoring req])
      = (Returned b, (h ++ [EditGetRefactoring req]) ++ tail) →
      o = Returned tt
      ∧ rest = tail ++ (if b then [ExecuteCommand APPLY_SOURCE_CHANGE d
                                     (change (server_response env (List.length h) req))]
                        else []).
Proof.
  intros Hrun Hvo.
  destruct (edit_request_inv env d range k o h req rest Hrun Hvo)
    as (fb & entered & b & tail & _ & _ & _ & _ & _ & _ & -> & _
        & Hs & _ & -> & ->).
  split_and!.
  - repeat constructor; simpl; tauto.
  - repeat constructor; simpl; tauto.
  - intros b' tail' Hs'. change (List.length [_; _]) with 2%nat in Hs'.
    rewrite Hs in Hs'. injection Hs' as <- <-. done.
Qed.

(** C4.  When the response to the edit request reports at least one FATAL
    problem, what follows the request is one error message without choices
    (nothing is asked, so no answer of the user changes the outcome), the
    apply step is not called anywhere in the run, and the command returns.
    The text is the messages of the FATAL problems, each kept once,
    separated by a blank line, then a blank line and the notice that the
    refactor was not applied. *)
Theorem edit_fatal_aborts env d range k o h req rest :
  run (performRefactor env (Some d) range k)
    = (o, h ++ EditGetRefactoring req :: rest) →
  validateOnly req = false →
  let editResult := server_response env (List.length h) req in
  (∃ p, reported editResult p ∧ severity p = "FATAL") →
  let fatals :=
    filter (λ e, severity e = "FATAL")
      ((initialProblems editResult ++ optionsProblems editResult)
       ++ finalProblems editResult) in
  let lines := unique (message <$> fatals) in
  o = Returned tt
  ∧ rest = [ShowMessage ErrorLevel
              (join (LF +:+ LF) lines
               +:+ LF +:+ LF +:+ "Your refactor was not applied.") []]
  ∧ NoDup lines
  ∧ (∀ m, m ∈ lines
          ↔ ∃ p, reported editResult p ∧ severity p = "FATAL" ∧ message p = m)
  ∧ Forall (λ c, ¬ isApply c) (h ++ EditGetRefactoring req :: rest).
Proof.
  intros Hrun Hvo editResult Hfatal fatals lines.
  destruct (edit_phase env d range k o h req rest Hrun Hvo)
    as (Hnoapply & _ & Hphase).
  destruct (some_fatal_filter _ Hfatal) as (first & others & Hf).
  fold (allProblems editResult) in fatals.
  destruct (Hphase false
    [ShowMessage ErrorLevel
       (join (LF +:+ LF) lines +:+ LF +:+ LF +:+ "Your refactor was not applied.") []])
    as [-> ->].
  { fold editResult. subst lines fatals. rewrite Hf.
    apply (shouldApplyEdits_fatal env editResult d _ _ first others Hf). }
  split_and!; try done.
  - apply unique_NoDup.
  - intros m. subst lines. rewrite unique_elem_of, list_elem_of_fmap.
    split.
    + intros (p & -> & [Hsev Hp]%list_elem_of_filter).
      exists p. by rewrite reported_allProblems.
    + intros (p & Hp & Hsev & <-). exists p. split; [done|].
      apply list_elem_of_filter. by rewrite <- reported_allProblems.
  - rewrite app_nil_r, cons_middle, app_assoc. apply Forall_app. split; [done|].
    repeat constructor. simpl. tauto.
Qed.

(** C5.  When the response to the edit request reports no FATAL problem and
    carries no [change], nothing follows the request: no message, no prompt,
    no apply call, whatever ERROR or WARNING problems are reported; the whole
    run shows no message and the command returns.  [shouldApplyEdits]
    answers [false] on such a response and leaves the history as it was. *)
Theorem missing_change_aborts_silently env d range k o h req rest :
  run (performRefactor env (Some d) range k)
    = (o, h ++ EditGetRefactoring req :: rest) →
  validateOnly req = false →
  let editResult := server_response env (List.length h) req in
  (∀ p, reported editResult p → severity p ≠ "FATAL") →
  change editResult = None →
  o = Returned tt
  ∧ rest = []
  ∧ Forall (λ c, ¬ isMessage c) (h ++ EditGetRefactoring req :: rest)
  ∧ ∀ v0 h0, shouldApplyEdits env editResult d v0 h0 = (Returned false, h0).
Proof.
  intros Hrun Hvo editResult Hclean Hnone.
  destruct (edit_phase env d range k o h req rest Hrun Hvo)
    as (_ & Hnomsg & Hphase).
  apply no_fatal_filter in Hclean.
  destruct (Hphase false []) as [-> ->].
  { rewrite app_nil_r.
    apply (shouldApplyEdits_no_change env editResult d _ _ Hclean Hnone). }
  split_and!; try done.
  intros v0 h0. by apply shouldApplyEdits_no_change.
Qed.

(** C6.  When every problem of the response to the edit request is of
    severity ERROR or WARNING, there is at least one, and the response
    carries a [change]: the request is followed by one prompt whose text is
    the messages of the problems, each kept once, separated by a blank line,
    and whose single choice is "Refactor Anyway"; the prompt is an error
    message if some problem is of severity ERROR and a warning message
    otherwise.  If the user picks the choice and the version read after the
    prompt equals the version captured at the start, the apply command
    follows, once, with the document and the [change], and ends the run; if
    the user picks nothing (or anything else) the run ends with the prompt
    and the apply step is not called. *)
Theorem consent_prompt env d range k o h req rest c :
  run (performRefactor env (Some d) range k)
    = (o, h ++ EditGetRefactoring req :: rest) →
  validateOnly req = false →
  let editResult := server_response env (List.length h) req in
  let problems :=
    (initialProblems editResult ++ optionsProblems editResult)
    ++ finalProblems editResult in
  problems ≠ [] →
  (∀ p, p ∈ problems → severity p = "ERROR" ∨ severity p = "WARNING") →
  change editResult = Some c →
  let lines := unique (message <$> problems) in
  let text := join (LF +:+ LF) lines in
  let asking := h ++ [EditGetRefactoring req] in
  o = Returned tt
  ∧ NoDup lines
  ∧ (∀ m, m ∈ lines ↔ ∃ p, p ∈ problems ∧ message p = m)
  ∧ ∃ level,
      (level = ErrorLevel ↔ ∃ p, p ∈ problems ∧ severity p = "ERROR")
      ∧ let prompt := ShowMessage level text ["Refactor Anyway"] in
        let picked :=
          user_pick env (List.length asking) level text ["Refactor Anyway"] in
        Forall (λ c, ¬ isApply c) (asking ++ [prompt])
        ∧ (picked = Some "Refactor Anyway" →
           version d (List.length (asking ++ [prompt])) = version d 0 →
           rest = [prompt; ExecuteCommand "_dart.applySourceChange" d (Some c)])
        ∧ (picked ≠ Some "Refactor Anyway" → rest = [prompt]).
Proof.
  intros Hrun Hvo editResult problems Hsome Hall Hc lines text asking.
  destruct (edit_phase env d range k o h req rest Hrun Hvo)
    as (Hnoapply & _ & Hphase).
  fold editResult in Hphase. fold asking in Hphase, Hnoapply.
  assert (filter (λ e, severity e = "FATAL") (allProblems editResult) = []) as Hf.
  { apply filter_nil_iff. intros p Hp Hsev.
    destruct (Hall p Hp) as [He|He]; rewrite Hsev in He; discriminate. }
  assert (filter (λ e, severity e = "ERROR" ∨ severity e = "WARNING")
            (allProblems editResult) = problems) as Hw by by apply filter_all.
  destruct problems as [|first others] eqn:Hproblems; [done|].
  pose proof (shouldApplyEdits_prompt env editResult d (version d 0) asking
                c first others Hf Hc Hw) as Hs.
  cbv zeta in Hs. fold lines text in Hs.
  set (level := if bool_decide (Exists (λ e, severity e = "ERROR")
                                  (allProblems editResult))
                then ErrorLevel else WarningLevel) in Hs.
  assert (o = Returned tt) as ->.
  { repeat case_decide; eapply Hphase; try exact Hs.
    by rewrite Hs, <- app_assoc. }
  split_and!; [done|apply unique_NoDup| |].
  { intros m. subst lines. rewrite unique_elem_of, list_elem_of_fmap.
    split; intros (p & Hp1 & Hp2); by exists p. }
  exists level. split.
  { assert (allProblems editResult = first :: others) as Heq by exact Hproblems.
    subst level.
    case_bool_decide as Hex; rewrite Exists_exists, Heq in Hex.
    - split; [intros _; exact Hex|done].
    - split; [done|]. intros Hp. by destruct Hex. }
  cbv zeta. split_and!.
  - apply Forall_app. split; [done|]. repeat constructor. simpl. tauto.
  - intros Hpick Hv.
    rewrite decide_True in Hs by exact Hpick.
    rewrite decide_True in Hs by exact Hv.
    destruct (Hphase _ _ Hs) as [_ ->]. by rewrite Hc.
  - intros Hpick.
    rewrite decide_False in Hs by exact Hpick.
    destruct (Hphase _ _ Hs) as [_ ->]. done.
Qed.

(** The final gate, seen from the edit request of a run: once the response
    reports no FATAL problem, carries a [change], and the user consented or
    had nothing to consent to, a changed version gives the fixed error
    message and no apply call, an unchanged one gives the apply call. *)
Lemma stale_gate_after_request env d range k o h req rest c :
  run (performRefactor env (Some d) range k)
    = (o, h ++ EditGetRefactoring req :: rest) →
  validateOnly req = false →
  let editResult := server_response env (List.length h) req in
  let problems :=
    (initialProblems editResult ++ optionsProblems editResult)
    ++ finalProblems editResult in
  (∀ p, p ∈ problems → severity p ≠ "FATAL") →
  change editResult = Some c →
  let actionable :=
    filter (λ e, severity e = "ERROR" ∨ severity e = "WARNING") problems in
  let level := if bool_decide (Exists (λ e, severity e = "ERROR") problems)
               then ErrorLevel else WarningLevel in
  let text := join (LF +:+ LF) (unique (message <$> actionable)) in
  let consent := match actionable with
                 | [] => []
                 | _ :: _ => [ShowMessage level text ["Refactor Anyway"]]
                 end in
  (actionable ≠ [] →
   user_pick env (List.length (h ++ [EditGetRefactoring req])) level text
     ["Refactor Anyway"] = Some "Refactor Anyway") →
  let gate := h ++ EditGetRefactoring req :: consent in
  o = Returned tt
  ∧ (version d (List.length gate) ≠ version d 0 →
     rest = consent ++
            [ShowMessage ErrorLevel
               "This refactor cannot be applied because the document has changed."
               []]
     ∧ Forall (λ c, ¬ isApply c) (h ++ EditGetRefactoring req :: rest))
  ∧ (version d (List.length gate) = version d 0 →
     rest = consent ++ [ExecuteCommand "_dart.applySourceChange" d (Some c)]).
Proof.
  intros Hrun Hvo editResult problems Hclean Hc actionable level text consent
    Hconsent gate.
  destruct (edit_phase env d range k o h req rest Hrun Hvo)
    as (Hnoapply & _ & Hphase).
  fold editResult in Hphase.
  assert (filter (λ e, severity e = "FATAL") (allProblems editResult) = []) as Hf
    by by apply filter_nil_iff.
  assert (List.length gate
          = List.length ((h ++ [EditGetRefactoring req]) ++ consent)) as Hlen
    by (subst gate; by rewrite <- app_assoc).
  assert (∀ last : @Call MP SC, ¬ isApply last →
            Forall (λ c, ¬ isApply c)
              (h ++ EditGetRefactoring req :: consent ++ [last])) as Hquiet.
  { intros last Hlast. rewrite cons_middle, app_assoc.
    apply Forall_app. split; [done|]. apply Forall_app. split.
    - subst consent. destruct actionable; repeat constructor. simpl. tauto.
    - by repeat constructor. }
  rewrite Hlen. clear Hlen. clearbody gate.
  destruct actionable as [|first others] eqn:Hw.
  - pose proof (shouldApplyEdits_clean env editResult d (version d 0)
                  (h ++ [EditGetRefactoring req]) c Hf Hc Hw) as Hs.
    subst consent. rewrite app_nil_r.
    case_decide as Hv.
    + rewrite <- (app_nil_r (h ++ [EditGetRefactoring req])) in Hs at 2.
      destruct (Hphase _ _ Hs) as [-> ->]. rewrite Hc.
      split_and!; [done|by intros []|done].
    + destruct (Hphase _ _ Hs) as [-> ->].
      split_and!; [done| |by intros ?]. intros _. split; [done|].
      apply (Hquiet (ShowMessage ErrorLevel REFACTOR_FAILED_DOC_MODIFIED [])).
      simpl. tauto.
  - pose proof (shouldApplyEdits_prompt env editResult d (version d 0)
                  (h ++ [EditGetRefactoring req]) c first others Hf Hc Hw) as Hs.
    cbv zeta in Hs. fold level in Hs.
    rewrite decide_True in Hs by (by apply Hconsent).
    subst consent.
    case_decide as Hv.
    + destruct (Hphase _ _ Hs) as [-> ->]. rewrite Hc.
      split_and!; [done|by intros []|done].
    + rewrite <- app_assoc in Hs. destruct (Hphase _ _ Hs) as [-> ->].
      rewrite app_nil_r.
      split_and!; [done| |by intros ?]. intros _. split; [done|].
      apply (Hquiet (ShowMessage ErrorLevel REFACTOR_FAILED_DOC_MODIFIED [])).
      simpl. tauto.
Qed.

(** C8.  The EXTRACT_METHOD resolver opens one input box, with the prompt
    of the source and, as default value, the first suggested name of the
    feedback; there is no default when the list of names is empty or
    missing.  For a non-empty entry it returns the options made of that
    name, [createGetter] and [extractAll] false, and the parameters and the
    return type of the feedback as they are.  On the feedback
    [{names: ["extracted"], parameters: [], returnType: "void"}] the default
    is "extracted", and the entry "computeTotal" gives
    [{name: "computeTotal", createGetter: false, extractAll: false,
      parameters: [], returnType: "void"}]. *)
Theorem extract_method_options env h fb entered :
  let box :=
    {| prompt := "Enter a name for the method";
       value := match names fb with
                | Some (first :: _) => Some first
                | _ => None
                end |} in
  user_entry env (List.length h) box = Some entered →
  entered ≠ "" →
  getExtractMethodArgs env (Some fb) h
  = (Returned (Some {| createGetter := false; extractAll := false;
                       name := entered;
                       parameters := fb_parameters fb;
                       returnType := fb_returnType fb |}),
     h ++ [ShowInputBox box])
  ∧ (names fb = None ∨ names fb = Some [] → value box = None)
  ∧ (∀ first others, names fb = Some (first :: others) → value box = Some first)
  ∧ (fb = {| names := Some ["extracted"]; fb_parameters := [];
             fb_returnType := "void" |} →
     entered = "computeTotal" →
     value box = Some "extracted"
     ∧ (getExtractMethodArgs env (Some fb) h).1
       = Returned (Some {| createGetter := false; extractAll := false;
                           name := "computeTotal";
                           parameters := [];
                           returnType := "void" |})).
Proof.
  intros box Hentry Hne.
  assert (getExtractMethodArgs env (Some fb) h
          = (Returned (Some {| createGetter := false; extractAll := false;
                               name := entered;
                               parameters := fb_parameters fb;
                               returnType := fb_returnType fb |}),
             h ++ [ShowInputBox box])) as Hargs.
  { rewrite getExtractMethodArgs_eq. change (nameInputBox fb) with box.
    rewrite Hentry.
    by rewrite decide_False. }
  split_and!.
  - exact Hargs.
  - subst box. simpl. by intros [->| ->].
  - subst box. simpl. by intros first others ->.
  - intros -> ->. split; [done|]. by rewrite Hargs.
Qed.

(** The name prompt of a run: where it stands and what follows it. *)
Lemma name_prompt_inv env d range k o h box rest :
  run (performRefactor env (Some d) range k)
    = (o, h ++ ShowInputBox box :: rest) →
  let vreq := refactoringRequest d 0 k range true None in
  h = [EditGetRefactoring vreq]
  ∧ ((user_entry env 1 box = None ∨ user_entry env 1 box = Some "") →
     o = Returned tt ∧ rest = []).
Proof.
  intros Hrun vreq.
  destruct (isClosed d 0) eqn:Hopen.
  { rewrite performRefactor_closed in Hrun by done.
    injection Hrun as _ Hh. by destruct h. }
  rewrite (performRefactor_run env d range k Hopen) in Hrun.
  fold vreq in Hrun. set (vres := server_response env 0 vreq) in Hrun.
  assert (isInputBox (ShowInputBox box : @Call MP SC)) as Hbox by done.
  destruct (filter _ (allProblems vres)) as [|f fs] eqn:Hf.
  2:{ injection Hrun as _ Hh. exfalso.
      eapply (decompose_absent isInputBox); [|exact Hh|exact Hbox].
      repeat constructor; simpl; tauto. }
  assert (∀ e, (e, [EditGetRefactoring vreq])
               = (o, h ++ ShowInputBox box :: rest) → False) as Hstop.
  { intros e [= _ Hh].
    eapply (decompose_absent isInputBox); [|exact Hh|exact Hbox].
    repeat constructor. simpl. tauto. }
  destruct k; try (by apply Hstop in Hrun).
  destruct (feedback vres) as [fb|] eqn:Hfb; [|by apply Hstop in Hrun].
  cbv zeta in Hrun.
  assert (∀ e tail,
            Forall (λ c : @Call MP SC, ¬ isInputBox c) tail →
            (e, [EditGetRefactoring vreq] ++ ShowInputBox (nameInputBox fb) :: tail)
            = (o, h ++ ShowInputBox box :: rest) →
            h = [EditGetRefactoring vreq] ∧ box = nameInputBox fb
            ∧ rest = tail ∧ o = e) as Hfound.
  { intros e tail Htail [= -> Hh].
    apply (decompose_unique isInputBox [EditGetRefactoring vreq]) in Hh
      as (-> & [= ->] & ->); try done.
    repeat constructor. simpl. tauto. }
  destruct (user_entry env 1 (nameInputBox fb)) as [entered|] eqn:Hentry.
  2:{ apply (Hfound _ []) in Hrun as (-> & -> & -> & ->); done. }
  destruct (decide (entered = "")) as [->|Hne].
  { apply (Hfound _ []) in Hrun as (-> & -> & -> & ->); done. }
  set (ereq := refactoringRequest d 2 EXTRACT_METHOD range false _) in Hrun.
  destruct (shouldApplyEdits_history env (server_response env 2 ereq) d (version d 0)
              ([EditGetRefactoring vreq; ShowInputBox (nameInputBox fb)]
               ++ [EditGetRefactoring ereq]))
    as (b & tail & Hs & Hmsg).
  pose proof (messages_not _ _ message_not_input_box Hmsg) as Htail.
  rewrite Hs in Hrun.
  assert (h = [EditGetRefactoring vreq] ∧ box = nameInputBox fb) as [-> ->].
  { destruct b.
    - apply (Hfound _ (EditGetRefactoring ereq :: tail ++ [_])) in Hrun
        as (-> & -> & _); [done|].
      constructor; [simpl; tauto|]. apply Forall_app. split; [done|].
      repeat constructor. simpl. tauto.
    - apply (Hfound _ (EditGetRefactoring ereq :: tail)) in Hrun
        as (-> & -> & _); [done|].
      constructor; [simpl; tauto|done]. }
  split; [done|]. rewrite Hentry. intros [?|?]; by simplify_eq.
Qed.

(** The resolver on a cancelled or empty entry. *)
Lemma getExtractMethodArgs_nothing env fb h :
  user_entry env (List.length h) (nameInputBox fb) = None
  ∨ user_entry env (List.length h) (nameInputBox fb) = Some "" →
  getExtractMethodArgs env (Some fb) h
  = (Returned None, h ++ [ShowInputBox (nameInputBox fb)]).
Proof.
  intros Hentry. rewrite getExtractMethodArgs_eq.
  by destruct Hentry as [-> | ->].
Qed.

(** Every request of a run that carries options carries a name that is
    not empty. *)
Lemma request_name_not_empty env doc range k req opts :
  EditGetRefactoring req ∈ (run (performRefactor env doc range k)).2 →
  options req = Some opts →
  name opts ≠ "".
Proof.
  destruct doc as [d|]; [|by rewrite performRefactor_no_document, elem_of_nil].
  destruct (isClosed d 0) eqn:Hopen;
    [by rewrite performRefactor_closed, elem_of_nil|].
  rewrite (performRefactor_run env d range k Hopen).
  set (vreq := refactoringRequest d 0 k range true None).
  set (vres := server_response env 0 vreq).
  assert (∀ l : list (@Call MP SC),
            Forall (λ c, isMessage c ∨ isInputBox c ∨ isApply c) l →
            EditGetRefactoring req ∈ EditGetRefactoring vreq :: l →
            options req = Some opts → name opts ≠ "") as Hvalidation.
  { intros l Hl [[= ->]|Hin]%elem_of_cons; [done|].
    rewrite Forall_forall in Hl. by destruct (Hl _ Hin) as [[]|[[]|[]]]. }
  destruct (filter _ (allProblems vres)) as [|f fs].
  2:{ apply Hvalidation. constructor; [simpl; tauto|constructor]. }
  destruct k; try (by apply (Hvalidation [])).
  destruct (feedback vres) as [fb|]; [|by apply (Hvalidation [])].
  cbv zeta.
  destruct (user_entry env 1 (nameInputBox fb)) as [entered|].
  2:{ apply Hvalidation. constructor; [simpl; tauto|constructor]. }
  destruct (decide (entered = "")) as [|Hne].
  { apply Hvalidation. constructor; [simpl; tauto|constructor]. }
  set (ereq := refactoringRequest d 2 EXTRACT_METHOD range false _).
  destruct (shouldApplyEdits_history env (server_response env 2 ereq) d (version d 0)
              ([EditGetRefactoring vreq; ShowInputBox (nameInputBox fb)]
               ++ [EditGetRefactoring ereq]))
    as (b & tail & -> & Hmsg).
  assert (EditGetRefactoring req ∉ tail) as Htail.
  { intros Hin. rewrite Forall_forall in Hmsg. by apply Hmsg in Hin. }
  intros Hin Hopts.
  assert (req = vreq ∨ req = ereq) as [-> | ->]; [|done|by simplify_eq/=].
  destruct b; simpl in Hin;
    rewrite !elem_of_cons, ?elem_of_app, ?list_elem_of_singleton in Hin;
    [destruct Hin as [Hin|[Hin|[Hin|[Hin|Hin]]]]
    |destruct Hin as [Hin|[Hin|[Hin|Hin]]]];
    try (by destruct (Htail Hin)); try discriminate Hin;
    injection Hin as ->; auto.
Qed.

(** Checks a property of calls on a history that is written out. *)
Local Ltac check_calls :=
  simpl;
  repeat (apply Forall_cons_2; [unfold refactoringRequest; simpl; naive_solver|]);
  apply Forall_nil_2.

(** C9.  When the user cancels the name prompt of an EXTRACT_METHOD
    invocation (the input box returns nothing), the resolver returns no
    options and the command returns at once: the run is the validation
    request followed by the input box, so no edit request is issued, the
    apply step is not called and no message is shown. *)
Theorem cancelled_name_prompt env d range o h box rest :
  run (performRefactor env (Some d) range EXTRACT_METHOD)
    = (o, h ++ ShowInputBox box :: rest) →
  user_entry env (List.length h) box = None →
  o = Returned tt
  ∧ h = [EditGetRefactoring (refactoringRequest d 0 EXTRACT_METHOD range true None)]
  ∧ rest = []
  ∧ Forall (λ c, ¬ isEditRequest c ∧ ¬ isApply c ∧ ¬ isMessage c)
      (h ++ ShowInputBox box :: rest)
  ∧ ∀ fb h0,
      user_entry env (List.length h0) (nameInputBox fb) = None →
      getExtractMethodArgs env (Some fb) h0
      = (Returned None, h0 ++ [ShowInputBox (nameInputBox fb)]).
Proof.
  intros Hrun Hentry.
  destruct (name_prompt_inv env d range _ o h box rest Hrun) as [-> Hquit].
  destruct Hquit as [-> ->]; [by left|].
  split_and!; try done.
  - check_calls.
  - intros fb h0 Hnone. apply getExtractMethodArgs_nothing. by left.
Qed.

(** C10.  An empty string entered at the name prompt of an EXTRACT_METHOD
    invocation is handled as a cancellation: the resolver returns no
    options, the command returns, and the run is the validation request
    followed by the input box (no edit request, no apply call, no message).
    Hence no run of the command, for any kind and any document, issues a
    request whose options carry an empty name. *)
Theorem empty_name_is_cancellation env d range o h box rest :
  run (performRefactor env (Some d) range EXTRACT_METHOD)
    = (o, h ++ ShowInputBox box :: rest) →
  user_entry env (List.length h) box = Some "" →
  o = Returned tt
  ∧ h = [EditGetRefactoring (refactoringRequest d 0 EXTRACT_METHOD range true None)]
  ∧ rest = []
  ∧ Forall (λ c, ¬ isEditRequest c ∧ ¬ isApply c ∧ ¬ isMessage c)
      (h ++ ShowInputBox box :: rest)
  ∧ (∀ fb h0,
       user_entry env (List.length h0) (nameInputBox fb) = Some "" →
       getExtractMethodArgs env (Some fb) h0
       = (Returned None, h0 ++ [ShowInputBox (nameInputBox fb)]))
  ∧ (∀ env' doc range' k req opts,
       EditGetRefactoring req ∈ (run (performRefactor env' doc range' k)).2 →
       options req = Some opts →
       name opts ≠ "").
Proof.
  intros Hrun Hentry.
  destruct (name_prompt_inv env d range _ o h box rest Hrun) as [-> Hquit].
  destruct Hquit as [-> ->]; [by right|].
  split_and!; try done.
  - check_calls.
  - intros fb h0 Hempty. apply getExtractMethodArgs_nothing. by right.
  - apply request_name_not_empty.
Qed.
End Protocol.

(** ** The properties on the scenarios *)

Import Scenario.

(** C2 does not hold as it stands.  A kind without resolver, here RENAME, on
    an open document and a validation without problem: the command does not
    return, it raises. *)
Lemma unregistered_kind_not_silent :
  isClosed main_dart 0 = false
  ∧ refactorOptions smooth !! kind_key RENAME = None
  ∧ (∀ p, reported (server_response smooth 0 (validationRequest RENAME)) p →
          severity p ≠ "FATAL")
  ∧ run (performRefactor smooth (Some main_dart) selection RENAME)
    = (Threw (NotAFunction "refactorOptions[refactorKind]"),
       [EditGetRefactoring (validationRequest RENAME)])
  ∧ (run (performRefactor smooth (Some main_dart) selection RENAME)).1
    ≠ Returned tt.
Proof.
  split_and!.
  - reflexivity.
  - reflexivity.
  - apply no_fatal_filter. reflexivity.
  - vm_compute. reflexivity.
  - vm_compute. discriminate.
Qed.

Lemma apply_only_without_fatal_and_unchanged_witness :
  ExecuteCommand "_dart.applySourceChange" main_dart (Some "extract computeTotal")
    ∈ (run (performRefactor smooth (Some main_dart) selection EXTRACT_METHOD)).2
  ∧ ∃ h req mid,
      (run (performRefactor smooth (Some main_dart) selection EXTRACT_METHOD)).2
        = h ++ EditGetRefactoring req :: mid
            ++ [ExecuteCommand "_dart.applySourceChange" main_dart
                  (Some "extract computeTotal")]
      ∧ validateOnly req = false
      ∧ version main_dart (List.length (h ++ EditGetRefactoring req :: mid))
        = version main_dart 0.
Proof.
  assert (ExecuteCommand "_dart.applySourceChange" main_dart
            (Some "extract computeTotal")
          ∈ (run (performRefactor smooth (Some main_dart) selection
                    EXTRACT_METHOD)).2) as Hin.
  { change (run (performRefactor smooth (Some main_dart) selection EXTRACT_METHOD)).2
      with (asked ++ [EditGetRefactoring editRequest;
                      ExecuteCommand "_dart.applySourceChange" main_dart
                        (Some "extract computeTotal")]).
    apply elem_of_app. right. apply elem_of_cons. right. apply elem_of_cons. by left. }
  split; [exact Hin|].
  destruct (apply_only_without_fatal_and_unchanged _ _ _ _ _ _ _ Hin)
    as (h & req & mid & Htrace & _ & _ & Hvo & _ & _ & _ & Hv).
  exists h, req, mid. split_and!; [exact Htrace|exact Hvo|exact Hv].
Defined.

Lemma unregistered_kind_raises_witness :
  isClosed main_dart 0 = false
  ∧ refactorOptions smooth !! kind_key RENAME = None
  ∧ run (performRefactor smooth (Some main_dart) selection RENAME)
    = (Threw (NotAFunction "refactorOptions[refactorKind]"),
       [EditGetRefactoring (validationRequest RENAME)]).
Proof.
  split_and!; [reflexivity|reflexivity|].
  apply (unregistered_kind_raises smooth main_dart selection RENAME);
    [reflexivity|reflexivity|].
  apply no_fatal_filter. reflexivity.
Defined.

Lemma validation_fatal_aborts_witness :
  isClosed main_dart 0 = false
  ∧ (∃ p, reported (server_response invalid 0 (validationRequest EXTRACT_METHOD)) p
          ∧ severity p = "FATAL")
  ∧ ∃ first,
      severity first = "FATAL"
      ∧ run (performRefactor invalid (Some main_dart) selection EXTRACT_METHOD)
        = (Returned tt,
           [EditGetRefactoring (validationRequest EXTRACT_METHOD);
            ShowMessage ErrorLevel (message first) []]).
Proof.
  assert (∃ p, reported (server_response invalid 0 (validationRequest EXTRACT_METHOD)) p
               ∧ severity p = "FATAL") as Hfatal.
  { exists (problem "FATAL" "selection is not a statement").
    split; [|reflexivity]. right. left. apply elem_of_cons. by left. }
  split_and!; [reflexivity|exact Hfatal|].
  destruct (validation_fatal_aborts invalid main_dart selection EXTRACT_METHOD
              eq_refl Hfatal)
    as (before & first & after & _ & _ & Hsev & Hrun & _).
  exists first. split; [exact Hsev|exact Hrun].
Defined.

Lemma edit_fatal_aborts_witness :
  run (performRefactor fatal_edit (Some main_dart) selection EXTRACT_METHOD)
  = (Returned tt,
     asked ++ EditGetRefactoring editRequest ::
       [ShowMessage ErrorLevel
          ("name is taken" +:+ LF +:+ LF +:+ "conflicting return"
           +:+ LF +:+ LF +:+ "Your refactor was not applied.") []])
  ∧ validateOnly editRequest = false
  ∧ (∃ p, reported (server_response fatal_edit 2 editRequest) p
          ∧ severity p = "FATAL")
  ∧ NoDup (unique (message <$>
             filter (λ e, severity e = "FATAL")
               (allProblems (server_response fatal_edit 2 editRequest)))).
Proof.
  assert (run (performRefactor fatal_edit (Some main_dart) selection EXTRACT_METHOD)
          = (Returned tt,
             asked ++ EditGetRefactoring editRequest ::
               [ShowMessage ErrorLevel
                  ("name is taken" +:+ LF +:+ LF +:+ "conflicting return"
                   +:+ LF +:+ LF +:+ "Your refactor was not applied.") []]))
    as Hrun by (vm_compute; reflexivity).
  assert (∃ p, reported (server_response fatal_edit 2 editRequest) p
               ∧ severity p = "FATAL") as Hfatal.
  { exists (problem "FATAL" "name is taken").
    split; [|reflexivity]. left. apply elem_of_cons. by left. }
  split_and!; [exact Hrun|reflexivity|exact Hfatal|].
  exact (proj1 (proj2 (proj2
           (edit_fatal_aborts fatal_edit main_dart selection EXTRACT_METHOD
              _ _ _ _ Hrun eq_refl Hfatal)))).
Defined.

Lemma missing_change_aborts_silently_witness :
  run (performRefactor no_change (Some main_dart) selection EXTRACT_METHOD)
  = (Returned tt, asked ++ EditGetRefactoring editRequest :: [])
  ∧ (∀ p, reported (server_response no_change 2 editRequest) p →
          severity p ≠ "FATAL")
  ∧ change (server_response no_change 2 editRequest) = None
  ∧ ∀ v0 h0,
      shouldApplyEdits no_change (server_response no_change 2 editRequest)
        main_dart v0 h0 = (Returned false, h0).
Proof.
  assert (run (performRefactor no_change (Some main_dart) selection EXTRACT_METHOD)
          = (Returned tt, asked ++ EditGetRefactoring editRequest :: []))
    as Hrun by (vm_compute; reflexivity).
  assert (∀ p, reported (server_response no_change 2 editRequest) p →
               severity p ≠ "FATAL") as Hclean
    by (apply no_fatal_filter; reflexivity).
  split_and!; [exact Hrun|exact Hclean|reflexivity|].
  exact (proj2 (proj2 (proj2
           (missing_change_aborts_silently no_change main_dart selection
              EXTRACT_METHOD _ _ _ _ Hrun eq_refl Hclean eq_refl)))).
Defined.

Lemma consent_prompt_witness :
  run (performRefactor consenting (Some main_dart) selection EXTRACT_METHOD)
  = (Returned tt,
     asked ++ EditGetRefactoring editRequest ::
       [consentPrompt;
        ExecuteCommand "_dart.applySourceChange" main_dart
          (Some "extract computeTotal")])
  ∧ allProblems (server_response consenting 2 editRequest) ≠ []
  ∧ (∀ p, p ∈ allProblems (server_response consenting 2 editRequest) →
          severity p = "ERROR" ∨ severity p = "WARNING")
  ∧ change (server_response consenting 2 editRequest) = Some "extract computeTotal"
  ∧ NoDup (unique (message <$> allProblems (server_response consenting 2 editRequest))).
Proof.
  assert (run (performRefactor consenting (Some main_dart) selection EXTRACT_METHOD)
          = (Returned tt,
             asked ++ EditGetRefactoring editRequest ::
               [consentPrompt;
                ExecuteCommand "_dart.applySourceChange" main_dart
                  (Some "extract computeTotal")]))
    as Hrun by (vm_compute; reflexivity).
  assert (allProblems (server_response consenting 2 editRequest) ≠ []) as Hsome
    by discriminate.
  assert (∀ p, p ∈ allProblems (server_response consenting 2 editRequest) →
               severity p = "ERROR" ∨ severity p = "WARNING") as Hall.
  { apply Forall_forall.
    repeat (apply Forall_cons_2; [simpl; auto|]). apply Forall_nil_2. }
  split_and!; [exact Hrun|exact Hsome|exact Hall|reflexivity|].
  exact (proj1 (proj2
           (consent_prompt consenting main_dart selection EXTRACT_METHOD
              _ _ _ _ _ Hrun eq_refl Hsome Hall eq_refl))).
Defined.

Lemma extract_method_options_witness :
  user_entry smooth 0 namePrompt = Some "computeTotal"
  ∧ "computeTotal" ≠ ""
  ∧ getExtractMethodArgs smooth (Some suggestion) []
    = (Returned (Some computeTotal), [ShowInputBox namePrompt]).
Proof.
  assert ("computeTotal" ≠ "") as Hne by discriminate.
  split_and!; [reflexivity|exact Hne|].
  exact (proj1 (extract_method_options smooth [] suggestion "computeTotal"
                  eq_refl Hne)).
Defined.

Lemma cancelled_name_prompt_witness :
  run (performRefactor cancelling (Some main_dart) selection EXTRACT_METHOD)
  = (Returned tt,
     validated ++ ShowInputBox namePrompt :: [])
  ∧ user_entry cancelling 1 namePrompt = None
  ∧ Forall (λ c, ¬ isEditRequest c ∧ ¬ isApply c ∧ ¬ isMessage c)
      (validated ++ ShowInputBox namePrompt :: []).
Proof.
  assert (run (performRefactor cancelling (Some main_dart) selection EXTRACT_METHOD)
          = (Returned tt,
             validated ++ ShowInputBox namePrompt :: []))
    as Hrun by (vm_compute; reflexivity).
  split_and!; [exact Hrun|reflexivity|].
  exact (proj1 (proj2 (proj2 (proj2
           (cancelled_name_prompt cancelling main_dart selection
              _ _ _ _ Hrun eq_refl))))).
Defined.

Lemma empty_name_is_cancellation_witness :
  run (performRefactor entering_nothing (Some main_dart) selection EXTRACT_METHOD)
  = (Returned tt,
     validated ++ ShowInputBox namePrompt :: [])
  ∧ user_entry entering_nothing 1 namePrompt = Some ""
  ∧ ∀ fb h0,
      user_entry entering_nothing (List.length h0) (nameInputBox fb) = Some "" →
      getExtractMethodArgs entering_nothing (Some fb) h0
      = (Returned None, h0 ++ [ShowInputBox (nameInputBox fb)]).
Proof.
  assert (run (performRefactor entering_nothing (Some main_dart) selection
                 EXTRACT_METHOD)
          = (Returned tt,
             validated ++ ShowInputBox namePrompt :: []))
    as Hrun by (vm_compute; reflexivity).
  split_and!; [exact Hrun|reflexivity|].
  exact (proj1 (proj2 (proj2 (proj2 (proj2
           (empty_name_is_cancellation entering_nothing main_dart selection
              _ _ _ _ Hrun eq_refl)))))).
Defined.

(** ** Further properties of the command *)

Section Further.
Context {MP SC : Type}.
Implicit Types (env : @Env MP SC) (h rest : list (@Call MP SC)).
Implicit Types (r : @EditGetRefactoringResponse MP SC).
Implicit Types (d : TextDocument) (doc : option TextDocument).

(** [shouldApplyEdits] always returns, and does so along one of the paths of
    [Verdict]. *)
Lemma shouldApplyEdits_verdict env r d v0 h :
  ∃ b shown,
    shouldApplyEdits env r d v0 h = (Returned b, h ++ shown)
    ∧ Verdict env r d v0 (List.length h) b shown.
Proof.
  destruct (filter (λ e, severity e = "FATAL") (allProblems r))
    as [|f fs] eqn:Hf.
  2:{ exists false, [fatalNotice r]. split.
      - rewrite (shouldApplyEdits_fatal env r d v0 h f fs Hf).
        unfold fatalNotice. by rewrite Hf.
      - constructor. by rewrite Hf. }
  destruct (change r) as [c|] eqn:Hc.
  2:{ exists false, []. split; [|by constructor].
      by rewrite app_nil_r, (shouldApplyEdits_no_change env r d v0 h Hf Hc). }
  assert (is_Some (change r)) as Hsome by (by rewrite Hc).
  destruct (actionable r) as [|w ws] eqn:Hw.
  - rewrite (shouldApplyEdits_clean env r d v0 h c Hf Hc Hw). case_decide.
    + exists true, []. split; [by rewrite app_nil_r|by constructor].
    + exists false, [staleNotice]. split; [done|by constructor].
  - assert (actionable r ≠ []) as Hne by (by rewrite Hw).
    pose proof (shouldApplyEdits_prompt env r d v0 h c w ws Hf Hc Hw) as Hs.
    cbv zeta in Hs. rewrite <- Hw in Hs.
    change (join (LF +:+ LF) (unique (message <$> actionable r)))
      with (consentText r) in Hs.
    change (if bool_decide (Exists (λ e, severity e = "ERROR") (allProblems r))
            then ErrorLevel else WarningLevel) with (consentLevel r) in Hs.
    change (ShowMessage (consentLevel r) (consentText r) [REFACTOR_ANYWAY])
      with (consentRequest r) in Hs.
    rewrite Hs. clear Hs.
    assert (List.length (h ++ [consentRequest r]) = S (List.length h)) as ->
      by (rewrite length_app; simpl; lia).
    repeat case_decide.
    + exists true, [consentRequest r]. split; [done|by constructor].
    + exists false, [consentRequest r; staleNotice].
      split; [by rewrite <- app_assoc|by constructor].
    + exists false, [consentRequest r]. split; [done|by constructor].
Qed.

(** What a verdict shows is made of messages, two at most. *)
Lemma Verdict_shown env r d v0 t b shown :
  Verdict env r d v0 t b shown →
  Forall isMessage shown ∧ (List.length shown ≤ 2)%nat.
Proof.
  intros []; split; simpl; try lia; by repeat constructor.
Qed.

(** The runs of the command on an open document, path by path. *)
Lemma open_run_shape env d range k :
  isClosed d 0 = false →
  let vreq := refactoringRequest d 0 k range true None in
  let vres := server_response env 0 vreq in
  ∃ o rest,
    run (performRefactor env (Some d) range k) = (o, EditGetRefactoring vreq :: rest)
    ∧ ((∃ first others,
          filter (λ e, severity e = "FATAL") (allProblems vres) = first :: others
          ∧ o = Returned tt
          ∧ rest = [ShowMessage ErrorLevel (message first) []])
       ∨ (filter (λ e, severity e = "FATAL") (allProblems vres) = []
          ∧ refactorOptions env !! kind_key k = None
          ∧ o = Threw (NotAFunction "refactorOptions[refactorKind]")
          ∧ rest = [])
       ∨ (filter (λ e, severity e = "FATAL") (allProblems vres) = []
          ∧ k = EXTRACT_METHOD ∧ feedback vres = None
          ∧ o = Threw (PropertyOfUndefined "names")
          ∧ rest = [])
       ∨ (∃ fb,
            filter (λ e, severity e = "FATAL") (allProblems vres) = []
            ∧ k = EXTRACT_METHOD ∧ feedback vres = Some fb
            ∧ (user_entry env 1 (nameInputBox fb) = None
               ∨ user_entry env 1 (nameInputBox fb) = Some "")
            ∧ o = Returned tt
            ∧ rest = [ShowInputBox (nameInputBox fb)])
       ∨ (∃ fb entered b shown,
            filter (λ e, severity e = "FATAL") (allProblems vres) = []
            ∧ k = EXTRACT_METHOD ∧ feedback vres = Some fb
            ∧ user_entry env 1 (nameInputBox fb) = Some entered ∧ entered ≠ ""
            ∧ let ereq :=
                refactoringRequest d 2 k range false
                  (Some {| createGetter := false; extractAll := false;
                           name := entered;
                           parameters := fb_parameters fb;
                           returnType := fb_returnType fb |}) in
              let eres := server_response env 2 ereq in
              Verdict env eres d (version d 0) 3 b shown
              ∧ o = Returned tt
              ∧ rest = ShowInputBox (nameInputBox fb) :: EditGetRefactoring ereq
                       :: shown
                       ++ (if b then [ExecuteCommand APPLY_SOURCE_CHANGE d (change eres)]
                           else []))).
Proof.
  intros Hopen vreq vres.
  rewrite (performRefactor_run env d range k Hopen). fold vreq vres.
  destruct (filter _ (allProblems vres)) as [|f fs] eqn:Hf.
  2:{ eexists _, _. split; [reflexivity|]. left. by exists f, fs. }
  destruct (refactorOptions env !! kind_key k) as [resolver|] eqn:Hlookup.
  2:{ rewrite refactorOptions_lookup in Hlookup.
      eexists _, _. split; [by destruct k|]. right. left. done. }
  rewrite refactorOptions_lookup in Hlookup.
  destruct k; try discriminate Hlookup.
  destruct (feedback vres) as [fb|] eqn:Hfb.
  2:{ eexists _, _. split; [reflexivity|]. do 2 right. left. done. }
  cbv zeta.
  destruct (user_entry env 1 (nameInputBox fb)) as [entered|] eqn:Hentry.
  2:{ eexists _, _. split; [reflexivity|]. do 3 right. left.
      exists fb. split_and!; try done. by left. }
  destruct (decide (entered = "")) as [->|Hne].
  { eexists _, _. split; [reflexivity|]. do 3 right. left.
    exists fb. split_and!; try done. by right. }
  set (ereq := refactoringRequest d 2 EXTRACT_METHOD range false _).
  destruct (shouldApplyEdits_verdict env (server_response env 2 ereq) d (version d 0)
              ([EditGetRefactoring vreq; ShowInputBox (nameInputBox fb)]
               ++ [EditGetRefactoring ereq]))
    as (b & shown & -> & Hverdict).
  simpl in Hverdict.
  exists (Returned tt),
    (ShowInputBox (nameInputBox fb) :: EditGetRefactoring ereq :: shown
     ++ (if b then [ExecuteCommand APPLY_SOURCE_CHANGE d
                      (change (server_response env 2 ereq))] else [])).
  split.
  - destruct b; simpl; [done|by rewrite app_nil_r].
  - do 4 right. exists fb, entered, b, shown. split_and!; done.
Qed.

(** X1.  The command makes no call at all exactly when the document is
    absent or already closed when the command starts; it then returns
    normally.  On an open document at least the validation request is
    issued. *)
Theorem no_call_iff_absent_or_closed env doc range k :
  ((run (performRefactor env doc range k)).2 = []
   ↔ doc = None ∨ ∃ d, doc = Some d ∧ isClosed d 0 = true)
  ∧ ((run (performRefactor env doc range k)).2 = [] →
     (run (performRefactor env doc range k)).1 = Returned tt).
Proof.
  destruct doc as [d|].
  2:{ rewrite performRefactor_no_document. split; [split; auto|done]. }
  destruct (isClosed d 0) eqn:Hopen.
  { rewrite performRefactor_closed by done. split; [|done].
    split; [|done]. intros _. right. by exists d. }
  destruct (open_run_shape env d range k Hopen) as (o & rest & -> & _).
  split; [|done]. split; [done|].
  intros [?|(d' & [= <-] & Hclosed)]; [done|]. by rewrite Hopen in Hclosed.
Qed.

(** X2.  On an open document the first call of the command is the
    validate-only request: it names the file of the document and the kind
    asked for, carries no options, starts at the offset of the start of the
    range and its length reaches the offset of the end of the range, both
    offsets being read when the command starts. *)
Theorem validation_request_first env d range k :
  isClosed d 0 = false →
  ∃ vreq rest,
    (run (performRefactor env (Some d) range k)).2
      = EditGetRefactoring vreq :: rest
    ∧ validateOnly vreq = true ∧ options vreq = None
    ∧ file vreq = fileName d ∧ kind vreq = k
    ∧ offset vreq = offsetAt d 0 (range_start range)
    ∧ offset vreq + length vreq = offsetAt d 0 (range_end range).
Proof.
  intros Hopen.
  destruct (open_run_shape env d range k Hopen) as (o & rest & Hrun & _).
  eexists _, rest. rewrite Hrun. split_and!; try reflexivity.
  simpl. lia.
Qed.

(** X3.  The request for the edits, when a run issues one, is the third call
    of the run and is for EXTRACT_METHOD.  It names the same file and kind as
    the validation request; its range is read again from the document, as it
    is at that moment.  Its options are made of the name the user entered in
    the input box (never empty), [createGetter] and [extractAll] false, and
    the parameters and return type of the feedback of the validation
    response. *)
Theorem edit_request_shape env d range k o h req rest :
  run (performRefactor env (Some d) range k)
    = (o, h ++ EditGetRefactoring req :: rest) →
  validateOnly req = false →
  let vres := server_response env 0 (refactoringRequest d 0 k range true None) in
  k = EXTRACT_METHOD ∧ List.length h = 2%nat
  ∧ file req = fileName d ∧ kind req = k
  ∧ offset req = offsetAt d 2 (range_start range)
  ∧ offset req + length req = offsetAt d 2 (range_end range)
  ∧ ∃ fb opts,
      feedback vres = Some fb ∧ options req = Some opts
      ∧ user_entry env 1 (nameInputBox fb) = Some (name opts)
      ∧ name opts ≠ ""
      ∧ createGetter opts = false ∧ extractAll opts = false
      ∧ parameters opts = fb_parameters fb
      ∧ returnType opts = fb_returnType fb.
Proof.
  intros Hrun Hvo vres.
  destruct (edit_request_inv env d range k o h req rest Hrun Hvo)
    as (fb & entered & b & tail & _ & -> & _ & Hfb & Hentry & Hne & -> & ->
        & _).
  split_and!; try reflexivity; [simpl; lia|].
  eexists fb, _. split_and!; try reflexivity; done.
Qed.

(** X4.  No run of the command makes more than five calls: at most two
    requests to the analysis server, one input box, two messages and one call
    to the apply step. *)
Theorem run_is_bounded env doc range k :
  let calls := (run (performRefactor env doc range k)).2 in
  (List.length calls ≤ 5)%nat
  ∧ (List.length (filter isRequest calls) ≤ 2)%nat
  ∧ (List.length (filter isInputBox calls) ≤ 1)%nat
  ∧ (List.length (filter isMessage calls) ≤ 2)%nat
  ∧ (List.length (filter isApply calls) ≤ 1)%nat.
Proof.
  destruct doc as [d|].
  2:{ rewrite performRefactor_no_document. simpl. repeat split; lia. }
  destruct (isClosed d 0) eqn:Hopen.
  { rewrite performRefactor_closed by done. simpl. repeat split; lia. }
  destruct (open_run_shape env d range k Hopen) as (o & rest & -> & Hcases).
  destruct Hcases
    as [(f & fs & _ & _ & ->)
       |[(_ & _ & _ & ->)
        |[(_ & _ & _ & _ & ->)
         |[(fb & _ & _ & _ & _ & _ & ->)
          |(fb & entered & b & shown & _ & _ & _ & _ & _ & Hverdict & _ & ->)]]]];
    try (vm_compute; repeat split; lia).
  destruct Hverdict; vm_compute; repeat split; lia.
Qed.

(** X5.  The exceptions the command raises itself.  There are two, both on
    an open document whose validation reports no FATAL problem: calling the
    missing resolver of a kind that [refactorOptions] does not list, and
    reading [names] from the feedback that the validation response does not
    carry.  Each is raised exactly in its situation, with the validation
    request as the only call made.  (A collaborator whose call fails is not
    part of the model: see [Env].) *)
Theorem raises_iff env doc range k :
  ((run (performRefactor env doc range k)).1
     = Threw (NotAFunction "refactorOptions[refactorKind]")
   ↔ ∃ d, doc = Some d ∧ isClosed d 0 = false
        ∧ let vres :=
            server_response env 0 (refactoringRequest d 0 k range true None) in
          (∀ p, reported vres p → severity p ≠ "FATAL")
          ∧ refactorOptions env !! kind_key k = None)
  ∧ ((run (performRefactor env doc range k)).1
       = Threw (PropertyOfUndefined "names")
     ↔ ∃ d, doc = Some d ∧ isClosed d 0 = false
          ∧ let vres :=
              server_response env 0 (refactoringRequest d 0 k range true None) in
            (∀ p, reported vres p → severity p ≠ "FATAL")
            ∧ k = EXTRACT_METHOD ∧ feedback vres = None)
  ∧ (∀ e, (run (performRefactor env doc range k)).1 = Threw e →
          (e = NotAFunction "refactorOptions[refactorKind]"
           ∨ e = PropertyOfUndefined "names")
          ∧ ∃ d, doc = Some d
               ∧ (run (performRefactor env doc range k)).2
                 = [EditGetRefactoring (refactoringRequest d 0 k range true None)]).
Proof.
  destruct doc as [d|].
  2:{ rewrite performRefactor_no_document. simpl.
      split_and!; [split; [done|by intros (d & ? & _)]..|done]. }
  destruct (isClosed d 0) eqn:Hopen.
  { rewrite performRefactor_closed by done. simpl.
    split_and!; [split; [done|]..|done];
      intros (d' & [= <-] & Hclosed & _); by rewrite Hopen in Hclosed. }
  destruct (open_run_shape env d range k Hopen) as (o & rest & -> & Hcases).
  simpl.
  destruct Hcases
    as [(f & fs & Hf & -> & ->)
       |[(Hf & Hlookup & -> & ->)
        |[(Hf & -> & Hfb & -> & ->)
         |[(fb & Hf & -> & Hfb & _ & -> & ->)
          |(fb & entered & b & shown & Hf & -> & Hfb & _ & _ & _ & -> & ->)]]]].
  - split_and!; [split; [done|]..|done];
      intros (d' & [= <-] & _ & Hclean & _); apply no_fatal_filter in Hclean;
      by rewrite Hclean in Hf.
  - split_and!.
    + split; [|done]. intros _. exists d. split_and!; try done.
      by apply no_fatal_filter.
    + split; [done|]. intros (d' & [= <-] & _ & _ & -> & _).
      by rewrite refactorOptions_lookup in Hlookup.
    + intros e [= <-]. split; [by left|by exists d].
  - split_and!.
    + split; [done|]. intros (d' & [= <-] & _ & _ & Hlookup).
      by rewrite refactorOptions_lookup in Hlookup.
    + split; [|done]. intros _. exists d. split_and!; try done.
      by apply no_fatal_filter.
    + intros e [= <-]. split; [by right|by exists d].
  - split_and!; [split; [done|]..|done].
    + intros (d' & [= <-] & _ & _ & Hlookup).
      by rewrite refactorOptions_lookup in Hlookup.
    + intros (d' & [= <-] & _ & _ & _ & Hnone). by rewrite Hfb in Hnone.
  - split_and!; [split; [done|]..|done].
    + intros (d' & [= <-] & _ & _ & Hlookup).
      by rewrite refactorOptions_lookup in Hlookup.
    + intros (d' & [= <-] & _ & _ & _ & Hnone). by rewrite Hfb in Hnone.
Qed.


(** X7.  [shouldApplyEdits] always returns a boolean, and returns [true]
    exactly when the response reports no FATAL problem, carries a [change],
    the user picked "Refactor Anyway" if there was an ERROR or WARNING problem
    to ask about, and the version of the document, read after the prompt if
    there was one, equals the version it was given. *)
Theorem shouldApplyEdits_true_iff env r d v0 h :
  let problems := (initialProblems r ++ optionsProblems r) ++ finalProblems r in
  let overridable :=
    filter (λ e, severity e = "ERROR" ∨ severity e = "WARNING") problems in
  let level := if bool_decide (Exists (λ e, severity e = "ERROR") problems)
               then ErrorLevel else WarningLevel in
  let text := join (LF +:+ LF) (unique (message <$> overridable)) in
  let gate := match overridable with
              | [] => List.length h
              | _ :: _ => S (List.length h)
              end in
  ∃ b h',
    shouldApplyEdits env r d v0 h = (Returned b, h')
    ∧ (b = true
       ↔ (∀ p, p ∈ problems → severity p ≠ "FATAL")
         ∧ is_Some (change r)
         ∧ (overridable = []
            ∨ user_pick env (List.length h) level text ["Refactor Anyway"]
              = Some "Refactor Anyway")
         ∧ version d gate = v0).
Proof.
  intros problems overridable level text gate.
  destruct (shouldApplyEdits_verdict env r d v0 h) as (b & shown & Hs & Hverdict).
  exists b, (h ++ shown). split; [exact Hs|].
  change overridable with (actionable r) in *.
  change level with (consentLevel r). change text with (consentText r).
  change problems with (allProblems r).
  rewrite <- (filter_nil_iff (λ e, severity e = "FATAL") (allProblems r)).
  destruct Hverdict as [Hf|Hf Hc|Hf Hc Hw Hv|Hf Hc Hw Hv|Hf Hc Hw Hp Hv
                       |Hf Hc Hw Hp Hv|Hf Hc Hw Hp].
  - split; [done|]. by intros (? & _).
  - split; [done|]. intros (_ & [c Hsome] & _). by rewrite Hc in Hsome.
  - split; [|done]. intros _. subst gate. rewrite Hw. split_and!; auto.
  - split; [done|]. intros (_ & _ & _ & Hgate). subst gate.
    rewrite Hw in Hgate. done.
  - split; [|done]. intros _. subst gate.
    destruct (actionable r); [done|]. split_and!; auto.
  - split; [done|]. intros (_ & _ & _ & Hgate). subst gate.
    destruct (actionable r); done.
  - split; [done|]. intros (_ & _ & [Hnone|Hpick] & _); done.
Qed.

(** X8.  A user who does not pick "Refactor Anyway" ends the run with the
    prompt: nothing is applied and nothing more is shown, so a document that
    changed in the meantime is not reported to a user who declined.  This
    holds for every response without FATAL problem, with a [change] and with
    at least one ERROR or WARNING problem, whatever else it reports. *)
Theorem declined_prompt_ends_run env d range k o h req rest c :
  run (performRefactor env (Some d) range k)
    = (o, h ++ EditGetRefactoring req :: rest) →
  validateOnly req = false →
  let editResult := server_response env (List.length h) req in
  let problems :=
    (initialProblems editResult ++ optionsProblems editResult)
    ++ finalProblems editResult in
  (∀ p, p ∈ problems → severity p ≠ "FATAL") →
  change editResult = Some c →
  let overridable :=
    filter (λ e, severity e = "ERROR" ∨ severity e = "WARNING") problems in
  overridable ≠ [] →
  let level := if bool_decide (Exists (λ e, severity e = "ERROR") problems)
               then ErrorLevel else WarningLevel in
  let text := join (LF +:+ LF) (unique (message <$> overridable)) in
  user_pick env (List.length (h ++ [EditGetRefactoring req])) level text
    ["Refactor Anyway"] ≠ Some "Refactor Anyway" →
  o = Returned tt
  ∧ rest = [ShowMessage level text ["Refactor Anyway"]].
Proof.
  intros Hrun Hvo editResult problems Hclean Hc overridable Hsome level text
    Hdeclined.
  destruct (edit_phase env d range k o h req rest Hrun Hvo) as (_ & _ & Hphase).
  fold editResult in Hphase.
  assert (filter (λ e, severity e = "FATAL") (allProblems editResult) = []) as Hf
    by by apply filter_nil_iff.
  destruct overridable as [|first others] eqn:Hw; [done|].
  pose proof (shouldApplyEdits_prompt env editResult d (version d 0)
                (h ++ [EditGetRefactoring req]) c first others Hf Hc Hw) as Hs.
  cbv zeta in Hs. fold level in Hs.
  rewrite decide_False in Hs by exact Hdeclined.
  destruct (Hphase _ _ Hs) as [-> ->]. by rewrite app_nil_r.
Qed.

(** Filtering twice, by a property and by a weaker one. *)
Lemma filter_filter_weaker {A} (P Q : A → Prop)
    `{∀ x, Decision (P x)} `{∀ x, Decision (Q x)} (l : list A) :
  (∀ x, P x → Q x) → filter P (filter Q l) = filter P l.
Proof.
  intros HPQ. induction l as [|x l IH]; [done|].
  destruct (decide (Q x)) as [HQ|HQ].
  - rewrite (filter_cons_True Q) by done.
    destruct (decide (P x)).
    + rewrite !filter_cons_True by done. by rewrite IH.
    + rewrite !filter_cons_False by done. done.
  - rewrite (filter_cons_False Q) by done.
    rewrite filter_cons_False by (intros HP; by apply HQ, HPQ). done.
Qed.

Lemma allProblems_keepProblems (keep : RefactoringProblem → Prop)
    `{∀ p, Decision (keep p)} r :
  allProblems (keepProblems keep r) = filter keep (allProblems r).
Proof. unfold allProblems, keepProblems. simpl. by rewrite !filter_app. Qed.

(** X9.  Only the severities the code names count.  Removing from a response
    every problem whose severity is none of FATAL, ERROR and WARNING changes
    neither the answer of [shouldApplyEdits] nor what it shows; and
    [shouldAbortRefactor] looks at the FATAL problems only. *)
Theorem other_severities_ignored env r d v0 h :
  shouldApplyEdits env
    (keepProblems (λ p, severity p = "FATAL" ∨ severity p = "ERROR"
                        ∨ severity p = "WARNING") r) d v0 h
  = shouldApplyEdits env r d v0 h
  ∧ shouldAbortRefactor env (keepProblems (λ p, severity p = "FATAL") r) h
    = shouldAbortRefactor env r h.
Proof.
  split.
  - unfold shouldApplyEdits. rewrite allProblems_keepProblems.
    rewrite (filter_filter_weaker (λ e, severity e = "FATAL")) by tauto.
    rewrite (filter_filter_weaker
               (λ e, severity e = "ERROR" ∨ severity e = "WARNING")) by tauto.
    rewrite (bool_decide_ext
               (Exists (λ e, severity e = "ERROR")
                  (filter (λ p, severity p = "FATAL" ∨ severity p = "ERROR"
                                ∨ severity p = "WARNING") (allProblems r)))
               (Exists (λ e, severity e = "ERROR") (allProblems r))).
    + reflexivity.
    + rewrite !Exists_exists. split.
      * intros (p & [_ Hp]%list_elem_of_filter & Hsev). by exists p.
      * intros (p & Hp & Hsev). exists p. split; [|done].
        apply list_elem_of_filter. tauto.
  - rewrite !shouldAbortRefactor_eq, allProblems_keepProblems.
    by rewrite (filter_filter_weaker (λ e, severity e = "FATAL")).
Qed.

(** Membership in a history that is written out. *)
Local Ltac in_calls H :=
  simpl in H;
  repeat (apply elem_of_cons in H as [H|H]; [try discriminate H|]);
  try (by apply elem_of_nil in H).

(** In a run that calls the apply step, a message that was shown is a
    prompt whose single choice is "Refactor Anyway", the user picked that
    choice on it, and the apply call follows it at once. *)
Lemma apply_follows_picked_prompt env doc range k command d a h level msg items rest :
  ExecuteCommand command d a ∈ (run (performRefactor env doc range k)).2 →
  (run (performRefactor env doc range k)).2
    = h ++ ShowMessage level msg items :: rest →
  items = ["Refactor Anyway"]
  ∧ user_pick env (List.length h) level msg items = Some "Refactor Anyway"
  ∧ rest = [ExecuteCommand command d a].
Proof.
  destruct doc as [d'|]; [|by rewrite performRefactor_no_document, elem_of_nil].
  destruct (isClosed d' 0) eqn:Hopen;
    [by rewrite performRefactor_closed, elem_of_nil|].
  destruct (open_run_shape env d' range k Hopen) as (o & rest' & -> & Hcases).
  simpl.
  destruct Hcases
    as [(f & fs & _ & _ & ->)
       |[(_ & _ & _ & ->)
        |[(_ & _ & _ & _ & ->)
         |[(fb & _ & _ & _ & _ & _ & ->)
          |(fb & entered & b & shown & _ & _ & _ & _ & _ & Hverdict & _ & ->)]]]];
    try (intros Hin; in_calls Hin; fail).
  set (ereq := refactoringRequest d' 2 k range false _) in *.
  set (eres := server_response env 2 ereq) in *.
  assert (isMessage (ShowMessage level msg items : @Call MP SC)) as Hmsg by done.
  destruct Hverdict as [Hf|Hf Hc|Hf Hc Hw Hv|Hf Hc Hw Hv|Hf Hc Hw Hp Hv
                       |Hf Hc Hw Hp Hv|Hf Hc Hw Hp];
    try (intros Hin; in_calls Hin; fail).
  - intros _ Htrace. exfalso.
    eapply (decompose_absent isMessage); [|exact Htrace|exact Hmsg].
    repeat (apply Forall_cons_2; [simpl; tauto|]). apply Forall_nil_2.
  - intros Hin Htrace. in_calls Hin. injection Hin as -> -> ->.
    apply (decompose_unique isMessage
             [EditGetRefactoring _; ShowInputBox _; EditGetRefactoring ereq])
      in Htrace as (-> & [= -> -> ->] & ->); try done.
    + repeat (apply Forall_cons_2; [simpl; tauto|]). apply Forall_nil_2.
    + repeat (apply Forall_cons_2; [simpl; tauto|]). apply Forall_nil_2.
Qed.

(** X10.  Consent is never bypassed.  A run that calls the apply step has
    this form: calls that show no message, then the request for the edits,
    then, if and only if the response to it reports an ERROR or WARNING
    problem, the prompt with the messages of those problems and the single
    choice "Refactor Anyway", on which the user picked that choice, then the
    apply call.  So the edits of a response with such a problem are never
    applied without the prompt having been shown and accepted, and any message
    shown in such a run is that prompt. *)
Theorem applied_means_consented env doc range k command d a :
  ExecuteCommand command d a ∈ (run (performRefactor env doc range k)).2 →
  (∃ h req,
     validateOnly req = false
     ∧ Forall (λ c, ¬ isMessage c) h
     ∧ let editResult := server_response env (List.length h) req in
       let problems :=
         (initialProblems editResult ++ optionsProblems editResult)
         ++ finalProblems editResult in
       let overridable :=
         filter (λ e, severity e = "ERROR" ∨ severity e = "WARNING") problems in
       let level := if bool_decide (Exists (λ e, severity e = "ERROR") problems)
                    then ErrorLevel else WarningLevel in
       let text := join (LF +:+ LF) (unique (message <$> overridable)) in
       (overridable = []
        ∧ (run (performRefactor env doc range k)).2
          = h ++ [EditGetRefactoring req; ExecuteCommand command d a])
       ∨ (overridable ≠ []
          ∧ (run (performRefactor env doc range k)).2
            = h ++ [EditGetRefactoring req;
                    ShowMessage level text ["Refactor Anyway"];
                    ExecuteCommand command d a]
          ∧ user_pick env (S (List.length h)) level text ["Refactor Anyway"]
            = Some "Refactor Anyway"))
  ∧ (∀ h level msg items rest,
       (run (performRefactor env doc range k)).2
         = h ++ ShowMessage level msg items :: rest →
       items = ["Refactor Anyway"]
       ∧ user_pick env (List.length h) level msg items = Some "Refactor Anyway"
       ∧ rest = [ExecuteCommand command d a]).
Proof.
  intros Happly. split.
  2:{ intros h level msg items rest.
      by apply apply_follows_picked_prompt. }
  revert Happly.
  destruct doc as [d'|]; [|by rewrite performRefactor_no_document, elem_of_nil].
  destruct (isClosed d' 0) eqn:Hopen;
    [by rewrite performRefactor_closed, elem_of_nil|].
  destruct (open_run_shape env d' range k Hopen) as (o & rest' & -> & Hcases).
  simpl.
  destruct Hcases
    as [(f & fs & _ & _ & ->)
       |[(_ & _ & _ & ->)
        |[(_ & _ & _ & _ & ->)
         |[(fb & _ & _ & _ & _ & _ & ->)
          |(fb & entered & b & shown & _ & _ & _ & _ & _ & Hverdict & _ & ->)]]]];
    try (intros Hin; in_calls Hin; fail).
  set (vreq := refactoringRequest d' 0 k range true None) in *.
  set (ereq := refactoringRequest d' 2 k range false _) in *.
  set (eres := server_response env 2 ereq) in *.
  destruct Hverdict as [Hf|Hf Hc|Hf Hc Hw Hv|Hf Hc Hw Hv|Hf Hc Hw Hp Hv
                       |Hf Hc Hw Hp Hv|Hf Hc Hw Hp];
    try (intros Hin; in_calls Hin; fail);
    intros Hin; in_calls Hin; injection Hin as -> -> ->;
    exists [EditGetRefactoring vreq; ShowInputBox (nameInputBox fb)], ereq;
    (split_and!;
     [reflexivity
     |repeat (apply Forall_cons_2; [simpl; tauto|]); apply Forall_nil_2
     |]).
  - left. split; [exact Hw|reflexivity].
  - right. split_and!; [exact Hw|reflexivity|exact Hp].
Qed.

(** X11.  The command shows two sorts of messages and no other: error
    notifications without any choice, and prompts whose single choice is
    "Refactor Anyway".  A warning is never shown as a bare notification. *)
Theorem message_shapes env doc range k level msg items :
  ShowMessage level msg items ∈ (run (performRefactor env doc range k)).2 →
  (items = [] ∧ level = ErrorLevel) ∨ items = ["Refactor Anyway"].
Proof.
  destruct doc as [d|]; [|by rewrite performRefactor_no_document, elem_of_nil].
  destruct (isClosed d 0) eqn:Hopen;
    [by rewrite performRefactor_closed, elem_of_nil|].
  destruct (open_run_shape env d range k Hopen) as (o & rest & -> & Hcases).
  simpl.
  destruct Hcases
    as [(f & fs & _ & _ & ->)
       |[(_ & _ & _ & ->)
        |[(_ & _ & _ & _ & ->)
         |[(fb & _ & _ & _ & _ & _ & ->)
          |(fb & entered & b & shown & _ & _ & _ & _ & _ & Hverdict & _ & ->)]]]];
    try (intros Hin; in_calls Hin; fail).
  - intros Hin. in_calls Hin. injection Hin as -> -> ->. by left.
  - destruct Hverdict; intros Hin; in_calls Hin;
      repeat match goal with
             | H : ShowMessage _ _ _ = _ ∨ _ |- _ => destruct H as [H|H]
             | H : _ ∈ _ :: _ |- _ => apply elem_of_cons in H as [H|H]
             | H : _ ∈ [] |- _ => by apply elem_of_nil in H
             | H : ShowMessage _ _ _ = _ |- _ =>
                 injection H as -> -> ->; auto
             end.
Qed.

(** [shouldApplyEdits] uses the answers of the user to the prompt only. *)
Lemma shouldApplyEdits_pick_ext env env' r d v0 h :
  (∀ t level msg,
     user_pick env t level msg [REFACTOR_ANYWAY]
     = user_pick env' t level msg [REFACTOR_ANYWAY]) →
  shouldApplyEdits env r d v0 h = shouldApplyEdits env' r d v0 h.
Proof.
  intros Hpick.
  destruct (filter (λ e, severity e = "FATAL") (allProblems r))
    as [|f fs] eqn:Hf.
  2:{ by rewrite !(shouldApplyEdits_fatal _ r d v0 h f fs Hf). }
  destruct (change r) as [c|] eqn:Hc.
  2:{ by rewrite !(shouldApplyEdits_no_change _ r d v0 h Hf Hc). }
  destruct (filter (λ e, severity e = "ERROR" ∨ severity e = "WARNING")
              (allProblems r)) as [|w ws] eqn:Hw.
  - by rewrite !(shouldApplyEdits_clean _ r d v0 h c Hf Hc Hw).
  - rewrite !(shouldApplyEdits_prompt _ r d v0 h c w ws Hf Hc Hw).
    cbv zeta. by rewrite Hpick.
Qed.

(** X12.  Notifications are fire-and-forget: the run of the command depends
    on the user only through what is entered in the input box and what is
    picked on a prompt offering "Refactor Anyway".  Two users who differ only
    in how they answer the other messages get the same run. *)
Theorem notification_answers_ignored env env' doc range k :
  (∀ t req, server_response env t req = server_response env' t req) →
  (∀ t box, user_entry env t box = user_entry env' t box) →
  (∀ t level msg,
     user_pick env t level msg ["Refactor Anyway"]
     = user_pick env' t level msg ["Refactor Anyway"]) →
  run (performRefactor env doc range k) = run (performRefactor env' doc range k).
Proof.
  intros Hserver Hentry Hpick.
  destruct doc as [d|]; [|by rewrite !performRefactor_no_document].
  destruct (isClosed d 0) eqn:Hopen; [by rewrite !performRefactor_closed|].
  rewrite !(performRefactor_run _ d range k Hopen).
  rewrite <- Hserver.
  destruct (filter _ (allProblems _)) as [|f fs]; [|done].
  destruct k; try done.
  destruct (feedback _) as [fb|]; [|done].
  cbv zeta. rewrite <- Hentry.
  destruct (user_entry env 1 (nameInputBox fb)) as [entered|]; [|done].
  destruct (decide (entered = "")); [done|].
  rewrite <- Hserver.
  by rewrite (shouldApplyEdits_pick_ext env env' _ _ _ _ Hpick).
Qed.

(** C7.  The final gate.  Staleness is looked at there and nowhere earlier:
    on an open document, once the validation reports no FATAL problem and the
    user has entered a name, the request for the edits is sent whatever the
    document has become in the meantime; if its response reports no FATAL
    problem and carries a [change], the consent prompt is shown when there is
    an ERROR or WARNING problem, again whatever the document has become; and
    only then, the user having consented or having had nothing to consent to,
    is the version read and compared with the one captured at the start.  If
    it differs, the fixed error message is shown, the command returns and the
    apply step is not called anywhere in the run; if it is equal, the apply
    command is called, even if the version was different at any moment in
    between.  The second part says the same of any run, seen from its edit
    request. *)
Theorem stale_document_gate env d range :
  (∀ fb entered c,
     isClosed d 0 = false →
     let vreq := refactoringRequest d 0 EXTRACT_METHOD range true None in
     let validationResult := server_response env 0 vreq in
     (∀ p, reported validationResult p → severity p ≠ "FATAL") →
     feedback validationResult = Some fb →
     user_entry env 1 (nameInputBox fb) = Some entered →
     entered ≠ "" →
     let ereq :=
       refactoringRequest d 2 EXTRACT_METHOD range false
         (Some {| createGetter := false; extractAll := false; name := entered;
                  parameters := fb_parameters fb;
                  returnType := fb_returnType fb |}) in
     let editResult := server_response env 2 ereq in
     let problems :=
       (initialProblems editResult ++ optionsProblems editResult)
       ++ finalProblems editResult in
     (∀ p, p ∈ problems → severity p ≠ "FATAL") →
     change editResult = Some c →
     let actionable :=
       filter (λ e, severity e = "ERROR" ∨ severity e = "WARNING") problems in
     let level := if bool_decide (Exists (λ e, severity e = "ERROR") problems)
                  then ErrorLevel else WarningLevel in
     let text := join (LF +:+ LF) (unique (message <$> actionable)) in
     let consent := match actionable with
                    | [] => []
                    | _ :: _ => [ShowMessage level text ["Refactor Anyway"]]
                    end in
     (actionable ≠ [] →
      user_pick env 3 level text ["Refactor Anyway"] = Some "Refactor Anyway") →
     let gate :=
       [EditGetRefactoring vreq; ShowInputBox (nameInputBox fb);
        EditGetRefactoring ereq] ++ consent in
     (version d (List.length gate) ≠ version d 0 →
      run (performRefactor env (Some d) range EXTRACT_METHOD)
      = (Returned tt,
         gate ++
         [ShowMessage ErrorLevel
            "This refactor cannot be applied because the document has changed."
            []])
      ∧ Forall (λ c, ¬ isApply c)
          (run (performRefactor env (Some d) range EXTRACT_METHOD)).2)
     ∧ (version d (List.length gate) = version d 0 →
        (run (performRefactor env (Some d) range EXTRACT_METHOD)).2
        = gate ++ [ExecuteCommand "_dart.applySourceChange" d (Some c)]))
  ∧ (∀ k o h req rest c,
       run (performRefactor env (Some d) range k)
         = (o, h ++ EditGetRefactoring req :: rest) →
       validateOnly req = false →
       let editResult := server_response env (List.length h) req in
       let problems :=
         (initialProblems editResult ++ optionsProblems editResult)
         ++ finalProblems editResult in
       (∀ p, p ∈ problems → severity p ≠ "FATAL") →
       change editResult = Some c →
       let actionable :=
         filter (λ e, severity e = "ERROR" ∨ severity e = "WARNING") problems in
       let level := if bool_decide (Exists (λ e, severity e = "ERROR") problems)
                    then ErrorLevel else WarningLevel in
       let text := join (LF +:+ LF) (unique (message <$> actionable)) in
       let consent := match actionable with
                      | [] => []
                      | _ :: _ => [ShowMessage level text ["Refactor Anyway"]]
                      end in
       (actionable ≠ [] →
        user_pick env (List.length (h ++ [EditGetRefactoring req])) level text
          ["Refactor Anyway"] = Some "Refactor Anyway") →
       let gate := h ++ EditGetRefactoring req :: consent in
       (version d (List.length gate) ≠ version d 0 →
        o = Returned tt
        ∧ rest = consent ++
                 [ShowMessage ErrorLevel
                    "This refactor cannot be applied because the document has changed."
                    []]
        ∧ Forall (λ c, ¬ isApply c) (h ++ EditGetRefactoring req :: rest))
       ∧ (version d (List.length gate) = version d 0 →
          rest = consent ++ [ExecuteCommand "_dart.applySourceChange" d (Some c)])).
Proof.
  split.
  2:{ intros k o h req rest c Hrun Hvo editResult problems Hclean Hc actionable
        level text consent Hconsent gate.
      destruct (stale_gate_after_request env d range k o h req rest c Hrun Hvo
                  Hclean Hc Hconsent) as (Ho & Hstale & Hsame).
      split; [|exact Hsame]. intros Hv. destruct (Hstale Hv). by split_and!. }
  intros fb entered c Hopen vreq validationResult Hvalid Hfb Hentry Hne ereq
    editResult problems Hclean Hc acts lvl txt consent Hconsent gate.
  apply no_fatal_filter in Hvalid.
  destruct (open_run_shape env d range EXTRACT_METHOD Hopen)
    as (o & rest & Hrun & Hcases).
  fold vreq validationResult in Hrun, Hcases.
  destruct Hcases
    as [(f & fs & Hf & _)
       |[(_ & Hlookup & _)
        |[(_ & _ & Hnone & _)
         |[(fb' & _ & _ & Hfb' & Hquit & _)
          |(fb' & entered' & b & shown & _ & _ & Hfb' & Hentry' & _ & Hverdict
            & -> & ->)]]]].
  - by rewrite Hvalid in Hf.
  - by rewrite refactorOptions_lookup in Hlookup.
  - by rewrite Hfb in Hnone.
  - rewrite Hfb in Hfb'. injection Hfb' as <-. rewrite Hentry in Hquit.
    destruct Hquit as [?|[= ?]]; [done|]. by subst.
  - rewrite Hfb in Hfb'. injection Hfb' as <-.
    rewrite Hentry in Hentry'. injection Hentry' as <-.
    cbv zeta in Hverdict. fold ereq in Hverdict, Hrun. fold editResult in Hverdict, Hrun.
    assert (filter (λ e, severity e = "FATAL") (allProblems editResult) = [])
      as Hnofatal by by apply filter_nil_iff.
    rewrite Hrun. clear Hrun.
    change acts with (actionable editResult) in *.
    change lvl with (consentLevel editResult) in *.
    change txt with (consentText editResult) in *.
    destruct Hverdict as [Hf|Hf Hc'|Hf Hc' Hw Hv|Hf Hc' Hw Hv|Hf Hc' Hw Hp Hv
                         |Hf Hc' Hw Hp Hv|Hf Hc' Hw Hp].
    + done.
    + by rewrite Hc in Hc'.
    + subst gate consent. rewrite Hw. simpl. split; [done|].
      intros _. by rewrite Hc.
    + subst gate consent. rewrite Hw. simpl. split; [|done].
      intros _. split; [done|].
      repeat (apply Forall_cons_2; [simpl; tauto|]). apply Forall_nil_2.
    + subst gate consent.
      destruct (actionable editResult) as [|w ws]; [done|].
      simpl. split; [done|]. intros _. by rewrite Hc.
    + subst gate consent.
      destruct (actionable editResult) as [|w ws]; [done|].
      simpl. split; [|done]. intros _. split; [done|].
      repeat (apply Forall_cons_2; [simpl; tauto|]). apply Forall_nil_2.
    + exfalso. apply Hp. by apply Hconsent.
Qed.

End Further.

(** ** The further properties on the scenarios *)

Lemma validation_request_first_witness :
  isClosed main_dart 0 = false
  ∧ ∃ vreq rest,
      (run (performRefactor smooth (Some main_dart) selection EXTRACT_METHOD)).2
        = EditGetRefactoring vreq :: rest
      ∧ validateOnly vreq = true ∧ options vreq = None
      ∧ file vreq = fileName main_dart ∧ kind vreq = EXTRACT_METHOD
      ∧ offset vreq = offsetAt main_dart 0 (range_start selection)
      ∧ offset vreq + length vreq = offsetAt main_dart 0 (range_end selection).
Proof.
  split; [reflexivity|].
  exact (validation_request_first smooth main_dart selection EXTRACT_METHOD eq_refl).
Defined.

Lemma edit_request_shape_witness :
  run (performRefactor smooth (Some main_dart) selection EXTRACT_METHOD)
  = (Returned tt,
     asked ++ EditGetRefactoring editRequest ::
       [ExecuteCommand "_dart.applySourceChange" main_dart
          (Some "extract computeTotal")])
  ∧ validateOnly editRequest = false
  ∧ file editRequest = fileName main_dart
  ∧ offset editRequest + length editRequest
    = offsetAt main_dart 2 (range_end selection).
Proof.
  assert (run (performRefactor smooth (Some main_dart) selection EXTRACT_METHOD)
          = (Returned tt,
             asked ++ EditGetRefactoring editRequest ::
               [ExecuteCommand "_dart.applySourceChange" main_dart
                  (Some "extract computeTotal")]))
    as Hrun by (vm_compute; reflexivity).
  destruct (edit_request_shape smooth main_dart selection EXTRACT_METHOD
              _ _ _ _ Hrun eq_refl)
    as (_ & _ & Hfile & _ & _ & Hend & _).
  split_and!; [exact Hrun|reflexivity|exact Hfile|exact Hend].
Defined.


Lemma declined_prompt_ends_run_witness :
  run (performRefactor declining (Some main_dart_edited) selection EXTRACT_METHOD)
  = (Returned tt, asked ++ EditGetRefactoring editRequest :: [consentPrompt])
  ∧ (∀ p, p ∈ allProblems (server_response declining 2 editRequest) →
          severity p ≠ "FATAL")
  ∧ change (server_response declining 2 editRequest) = Some "extract computeTotal"
  ∧ actionable (server_response declining 2 editRequest) ≠ []
  ∧ user_pick declining 3 ErrorLevel
      ("shadows a field" +:+ LF +:+ LF +:+ "unresolved type") ["Refactor Anyway"]
    ≠ Some "Refactor Anyway"
  ∧ version main_dart_edited 3 ≠ version main_dart_edited 0
  ∧ [consentPrompt]
    = [ShowMessage ErrorLevel
         ("shadows a field" +:+ LF +:+ LF +:+ "unresolved type")
         ["Refactor Anyway"]].
Proof.
  assert (run (performRefactor declining (Some main_dart_edited) selection
                 EXTRACT_METHOD)
          = (Returned tt, asked ++ EditGetRefactoring editRequest :: [consentPrompt]))
    as Hrun by (vm_compute; reflexivity).
  assert (∀ p, p ∈ allProblems (server_response declining 2 editRequest) →
               severity p ≠ "FATAL") as Hclean.
  { apply (filter_nil_iff (λ e, severity e = "FATAL")). reflexivity. }
  assert (actionable (server_response declining 2 editRequest) ≠ []) as Hsome
    by discriminate.
  assert (user_pick declining 3 ErrorLevel
            ("shadows a field" +:+ LF +:+ LF +:+ "unresolved type")
            ["Refactor Anyway"] ≠ Some "Refactor Anyway") as Hdeclined
    by discriminate.
  split_and!;
    [exact Hrun|exact Hclean|reflexivity|exact Hsome|exact Hdeclined
    |discriminate|].
  exact (proj2
           (declined_prompt_ends_run declining main_dart_edited selection
              EXTRACT_METHOD _ _ _ _ _ Hrun eq_refl Hclean eq_refl Hsome
              Hdeclined)).
Defined.

Lemma message_shapes_witness :
  ShowMessage ErrorLevel "selection is not a statement" []
    ∈ (run (performRefactor invalid (Some main_dart) selection EXTRACT_METHOD)).2
  ∧ (([] : list string) = [] ∧ ErrorLevel = ErrorLevel
     ∨ ([] : list string) = ["Refactor Anyway"]).
Proof.
  assert (ShowMessage ErrorLevel "selection is not a statement" []
          ∈ (run (performRefactor invalid (Some main_dart) selection
                    EXTRACT_METHOD)).2) as Hin.
  { change (run (performRefactor invalid (Some main_dart) selection
                   EXTRACT_METHOD)).2
      with ([EditGetRefactoring (validationRequest EXTRACT_METHOD);
             ShowMessage ErrorLevel "selection is not a statement" []]
            : list (@Call string string)).
    apply elem_of_cons. right. apply elem_of_cons. by left. }
  split; [exact Hin|].
  exact (message_shapes invalid (Some main_dart) selection EXTRACT_METHOD
           _ _ _ Hin).
Defined.

Lemma notification_answers_ignored_witness :
  (∀ t level msg,
     user_pick consenting t level msg ["Refactor Anyway"]
     = user_pick answering t level msg ["Refactor Anyway"])
  ∧ user_pick consenting 4 ErrorLevel REFACTOR_FAILED_DOC_MODIFIED []
    ≠ user_pick answering 4 ErrorLevel REFACTOR_FAILED_DOC_MODIFIED []
  ∧ run (performRefactor consenting (Some main_dart_edited) selection EXTRACT_METHOD)
    = run (performRefactor answering (Some main_dart_edited) selection EXTRACT_METHOD).
Proof.
  split_and!; [reflexivity|discriminate|].
  apply (notification_answers_ignored consenting answering); reflexivity.
Defined.

Lemma stale_document_gate_witness :
  (version main_dart_reverted 2 ≠ version main_dart_reverted 0
   ∧ version main_dart_reverted 3 = version main_dart_reverted 0
   ∧ (run (performRefactor smooth (Some main_dart_reverted) selection
             EXTRACT_METHOD)).2
     = asked ++ [EditGetRefactoring editRequest;
                 ExecuteCommand "_dart.applySourceChange" main_dart_reverted
                   (Some "extract computeTotal")])
  ∧ (version main_dart_edited 4 ≠ version main_dart_edited 0
     ∧ user_pick consenting 3 ErrorLevel
         ("shadows a field" +:+ LF +:+ LF +:+ "unresolved type")
         ["Refactor Anyway"] = Some "Refactor Anyway"
     ∧ run (performRefactor consenting (Some main_dart_edited) selection
              EXTRACT_METHOD)
       = (Returned tt,
          asked ++ [EditGetRefactoring editRequest; consentPrompt;
                    ShowMessage ErrorLevel
                      "This refactor cannot be applied because the document has changed."
                      []])
     ∧ Forall (λ c, ¬ isApply c)
         (run (performRefactor consenting (Some main_dart_edited) selection
                 EXTRACT_METHOD)).2).
Proof.
  assert ("computeTotal" ≠ "") as Hname by discriminate.
  assert (∀ env, server_response env 0 (validationRequest EXTRACT_METHOD) = valid →
            ∀ p, reported (server_response env 0 (validationRequest EXTRACT_METHOD)) p
                 → severity p ≠ "FATAL") as Hvalid.
  { intros env Henv. apply no_fatal_filter. by rewrite Henv. }
  split.
  - assert (version main_dart_reverted 3 = version main_dart_reverted 0) as Hsame
      by reflexivity.
    split_and!; [discriminate|exact Hsame|].
    refine (proj2 (proj1 (stale_document_gate smooth main_dart_reverted selection)
                     suggestion "computeTotal" "extract computeTotal"
                     eq_refl (Hvalid smooth eq_refl) eq_refl eq_refl Hname
                     _ eq_refl _) Hsame).
    + apply (filter_nil_iff (λ e, severity e = "FATAL")). reflexivity.
    + intros Hsome. by destruct Hsome.
  - assert (version main_dart_edited 4 ≠ version main_dart_edited 0) as Hstale
      by discriminate.
    assert (∀ p, p ∈ allProblems (server_response consenting 2 editRequest) →
                 severity p ≠ "FATAL") as Hclean.
    { apply (filter_nil_iff (λ e, severity e = "FATAL")). reflexivity. }
    destruct (proj1 (proj1 (stale_document_gate consenting main_dart_edited selection)
                       suggestion "computeTotal" "extract computeTotal"
                       eq_refl (Hvalid consenting eq_refl) eq_refl eq_refl Hname
                       Hclean eq_refl (λ _, eq_refl)) Hstale)
      as [Hrun Hquiet].
    split_and!; [exact Hstale|reflexivity|exact Hrun|exact Hquiet].
Defined.

Lemma applied_means_consented_witness :
  ExecuteCommand "_dart.applySourceChange" main_dart (Some "extract computeTotal")
    ∈ (run (performRefactor consenting (Some main_dart) selection EXTRACT_METHOD)).2
  ∧ actionable (server_response consenting 2 editRequest) ≠ []
  ∧ (run (performRefactor consenting (Some main_dart) selection EXTRACT_METHOD)).2
    = (asked ++ [EditGetRefactoring editRequest])
      ++ consentPrompt
         :: [ExecuteCommand "_dart.applySourceChange" main_dart
               (Some "extract computeTotal")]
  ∧ user_pick consenting 3 ErrorLevel
      ("shadows a field" +:+ LF +:+ LF +:+ "unresolved type") ["Refactor Anyway"]
    = Some "Refactor Anyway"
  ∧ ∃ (h : list (@Call string string)) req,
      validateOnly req = false ∧ Forall (λ c, ¬ isMessage c) h
      ∧ EditGetRefactoring req
        ∈ (run (performRefactor consenting (Some main_dart) selection
                  EXTRACT_METHOD)).2.
Proof.
  assert ((run (performRefactor consenting (Some main_dart) selection
                  EXTRACT_METHOD)).2
          = (asked ++ [EditGetRefactoring editRequest])
            ++ consentPrompt
               :: [ExecuteCommand "_dart.applySourceChange" main_dart
                     (Some "extract computeTotal")])
    as Htrace by (vm_compute; reflexivity).
  assert (ExecuteCommand "_dart.applySourceChange" main_dart
            (Some "extract computeTotal")
          ∈ (run (performRefactor consenting (Some main_dart) selection
                    EXTRACT_METHOD)).2) as Hin.
  { rewrite Htrace. apply elem_of_app. right. apply elem_of_cons. right.
    apply elem_of_cons. by left. }
  pose proof (applied_means_consented consenting (Some main_dart) selection
                EXTRACT_METHOD _ _ _ Hin) as [Hform Hshown].
  split_and!; [exact Hin|discriminate|exact Htrace| |].
  - exact (proj1 (proj2 (Hshown _ _ _ _ _ Htrace))).
  - destruct Hform as (h & req & Hvo & Hquiet & Hcases).
    exists h, req. split_and!; [exact Hvo|exact Hquiet|].
    cbv zeta in Hcases. destruct Hcases as [[_ ->]|(_ & -> & _)];
      apply elem_of_app; right; apply elem_of_cons; by left.
Defined.
